(** * QKART backend: the cart service ([cart.service.js]) and the user
    schema ([user.model.js]).

    The three Mongo collections are modelled as one [World]: the cart
    collection as a finite map from the owner's email (the only field the
    service ever queries it by) to the line items of that cart, the
    product collection as a list of documents searched by [_id], and the
    user collection as a finite map keyed by email (declared [unique] in
    the user schema).

    An [async] function is a state transformer on the [World] whose result
    is either the value the promise resolves with or the error it rejects
    with.  The schema's [Number] is a binary64 float; a quantity is an
    integer, which enters the arithmetic as the double nearest to it.
    What the service takes from mongoose is a parameter, the class
    [Mongo]: the type of ObjectIds with its hex string and its cast from a
    string, and whether creating a cart document fails.  Saving a user
    fails validation when the wallet is NaN; the other store calls are
    taken to succeed. *)

From Stdlib Require Import ZArith String List Lia.
From Stdlib Require Floats.
Import PrimFloat.
From stdpp Require Import base option list gmap strings.

Local Open Scope string_scope.
Local Open Scope list_scope.
Local Open Scope Z_scope.

(** ** Numbers *)

Module Number.
(** The double of an integer: the nearest one, ties to even. *)
Definition ofInteger (q : Z) : float :=
  FloatOps.SF2Prim
    (SpecFloat.binary_normalize FloatOps.prec FloatOps.emax q 0 false).
End Number.

(** ** What mongoose provides *)

Class Mongo : Type := {
  (** the type of [_id] fields *)
  ObjectId : Type;
  ObjectId_eq_dec :: EqDecision ObjectId;
  (** [id.toString()], the hex string of an id *)
  ObjectId_toString : ObjectId -> string;
  (** the cast mongoose applies to an [_id] in a query filter; [None]
      when the string is not an id *)
  ObjectId_cast : string -> option ObjectId;
  (** the hex string of an id casts back to that id *)
  ObjectId_cast_toString :
    forall id, ObjectId_cast (ObjectId_toString id) = Some id;
  (** does [Cart.create] fail for the cart of this email *)
  createFails : string -> bool
}.

(** [id.equals(otherId)] for a string [otherId]: the string is an id
    and it is this one. *)
Definition ObjectId_equals `{Mongo} (id : ObjectId) (otherId : string) : bool :=
  bool_decide (ObjectId_cast otherId = Some id).

(** ** http-status constants used by the service *)

Module httpStatus.
Definition BAD_REQUEST : Z := 400.
Definition NOT_FOUND : Z := 404.
Definition INTERNAL_SERVER_ERROR : Z := 500.
End httpStatus.

(** [new ApiError(statusCode, message)]; a message that is left out is
    the empty string. *)
Record ApiError : Type := mkApiError {
  statusCode : Z;
  message : string
}.

(** What a promise of this code rejects with: an [ApiError] of the
    service, the [CastError] of a query whose [_id] is not an id, the
    [ValidationError] of a document whose path holds no valid value, or
    the error of a store call that failed. *)
Inductive Error : Type :=
| ApiErr (e : ApiError)
| CastError (kind value path : string)
| ValidationError (path : string)
| MongoError.

Coercion ApiErr : ApiError >-> Error.

(** The kinds of failure a caller tells apart, read off the status
    code: 404, 400, 409 and 500. *)
Inductive ErrorKind : Type :=
| NotFound
| InvalidInput
| Conflict
| InternalFailure
| OtherError.

Definition errorKind (e : ApiError) : ErrorKind :=
  if statusCode e =? httpStatus.NOT_FOUND then NotFound
  else if statusCode e =? httpStatus.BAD_REQUEST then InvalidInput
  else if statusCode e =? 409 then Conflict
  else if statusCode e =? httpStatus.INTERNAL_SERVER_ERROR then InternalFailure
  else OtherError.


(** ** Documents *)

Module Product.
Record t `{Mongo} : Type := mk {
  _id : ObjectId;
  cost : float
}.
Arguments mk {_} _id cost.
End Product.

Module LineItem.
Record t `{Mongo} : Type := mk {
  product : Product.t;
  quantity : Z
}.
Arguments mk {_} product quantity.
End LineItem.

Module Cart.
Record t `{Mongo} : Type := mk {
  email : string;
  cartItems : list LineItem.t
}.
Arguments mk {_} email cartItems.
End Cart.

Module User.
Record t : Type := mk {
  name : string;
  email : string;
  walletMoney : float;
  address : string
}.
End User.

Module config.
Record t : Type := mk {
  default_address : string
}.
End config.

(** ** The stores *)

Record World `{Mongo} : Type := mkWorld {
  carts : gmap string (list LineItem.t);
  products : list Product.t;
  users : gmap string User.t
}.
Arguments mkWorld {_} carts products users.

(** ** Asynchronous computations over the stores *)

Inductive Outcome (A : Type) : Type :=
| Resolved (value : A)
| Rejected (error : Error).

Arguments Resolved {A} value.
Arguments Rejected {A} error.

Definition Async `{Mongo} (A : Type) : Type := World -> Outcome A * World.

Definition ret `{Mongo} {A} (a : A) : Async A := fun w => (Resolved a, w).

Definition throw `{Mongo} {A} (e : Error) : Async A :=
  fun w => (Rejected e, w).

Definition bind `{Mongo} {A B} (m : Async A) (k : A -> Async B) : Async B :=
  fun w =>
    match m w with
    | (Resolved a, w') => k a w'
    | (Rejected e, w') => (Rejected e, w')
    end.

(** [try { body } catch (error) { handler(error) }] *)
Definition try_catch `{Mongo} {A} (body : Async A)
  (handler : Error -> Async A) : Async A :=
  fun w =>
    match body w with
    | (Resolved a, w') => (Resolved a, w')
    | (Rejected e, w') => handler e w'
    end.

Notation "'await' x <- m ; k" := (bind m (fun x => k))
  (at level 10, x name, m at level 100, k at level 200, only parsing).

(** *** Model calls *)

Module CartModel.
(** [Cart.findOne({ email })] *)
Definition findOne `{Mongo} (email : string) : Async (option Cart.t) :=
  fun w => (Resolved (Cart.mk email <$> carts w !! email), w).

(** [cart.save()] *)
Definition save `{Mongo} (doc : Cart.t) : Async unit :=
  fun w =>
    (Resolved tt,
     mkWorld (<[Cart.email doc := Cart.cartItems doc]> (carts w))
             (products w) (users w)).

(** [Cart.create(doc)]: when it does not fail, the new document is
    stored at once. *)
Definition create `{Mongo} (doc : Cart.t) : Async Cart.t :=
  if createFails (Cart.email doc) then throw MongoError
  else
    await _ <- save doc;
    ret doc.
End CartModel.

Module ProductModel.
(** The hex string of the product's id is exactly [productId]. *)
Definition sameId `{Mongo} (productId : string) (p : Product.t) : bool :=
  String.eqb (ObjectId_toString (Product._id p)) productId.

Definition hasId `{Mongo} (id : ObjectId) (p : Product.t) : bool :=
  bool_decide (Product._id p = id).

(** [Product.findById(productId)], also [Product.findOne({ _id })]:
    the argument is cast to an id first, and the query rejects when it
    is not one. *)
Definition findById `{Mongo} (productId : string) : Async (option Product.t) :=
  match ObjectId_cast productId with
  | None => throw (CastError "ObjectId" productId "_id")
  | Some id => fun w => (Resolved (find (hasId id) (products w)), w)
  end.
End ProductModel.

Module UserModel.
(** [user.save()]; the pre-save hook only acts on a changed password,
    which the cart service never touches.  Validation comes first: the
    [Number] path [walletMoney] does not take NaN. *)
Definition save `{Mongo} (doc : User.t) : Async unit :=
  if is_nan (User.walletMoney doc) then throw (ValidationError "walletMoney")
  else
    fun w =>
      (Resolved tt,
       mkWorld (carts w) (products w) (<[User.email doc := doc]> (users w))).

(** [userSchema.methods.hasSetNonDefaultAddress] *)
Definition hasSetNonDefaultAddress `{Mongo} (cfg : config.t) (user : User.t)
  : Async bool :=
  ret (negb (String.eqb (User.address user) (config.default_address cfg))).
End UserModel.

(** ** Array helpers *)

(** [arr.forEach((obj, index) => ...)] threading the variables the
    callback assigns to. *)
Fixpoint forEach_from {A St : Type} (f : St -> A -> nat -> St)
  (arr : list A) (index : nat) (s : St) : St :=
  match arr with
  | [] => s
  | obj :: rest => forEach_from f rest (S index) (f s obj index)
  end.

Definition forEach {A St : Type} (f : St -> A -> nat -> St) (arr : list A)
  (s : St) : St :=
  forEach_from f arr 0%nat s.

(** [arr.splice(pos, 1)] *)
Definition splice1 {A : Type} (pos : nat) (arr : list A) : list A :=
  delete pos arr.

(** ** The cart service *)

(** [obj.product._id.toString() === productId.toString()] *)
Definition matchesId `{Mongo} (productId : string) (obj : LineItem.t) : bool :=
  String.eqb (ObjectId_toString (Product._id (LineItem.product obj))) productId.

(** [obj.product._id.equals(productId)] *)
Definition equalsId `{Mongo} (productId : string) (obj : LineItem.t) : bool :=
  ObjectId_equals (Product._id (LineItem.product obj)) productId.

Definition getCartByUser `{Mongo} (user : User.t) : Async (Cart.t + Error) :=
  try_catch
    (await cart <- CartModel.findOne (User.email user);
     match cart with
     | None =>
         throw (mkApiError httpStatus.NOT_FOUND "User does not have a cart")
     | Some cart => ret (inl cart)
     end)
    (fun error => ret (inr error)).

Definition addProductToCart `{Mongo} (user : User.t) (productId : string)
  (quantity : Z) : Async Cart.t :=
  await product <- ProductModel.findById productId;
  await cart <- CartModel.findOne (User.email user);
  await cart <-
    try_catch
      (match cart with
       | None => CartModel.create (Cart.mk (User.email user) [])
       | Some cart => ret cart
       end)
      (fun error => throw (mkApiError httpStatus.INTERNAL_SERVER_ERROR ""));
  let exist :=
    forEach (fun exist obj _ => if matchesId productId obj then true else exist)
            (Cart.cartItems cart) false in
  if exist then
    throw (mkApiError httpStatus.BAD_REQUEST
      "Product already in cart. Use the cart sidebar to update or remove product from cart")
  else
    match product with
    | None =>
        throw (mkApiError httpStatus.BAD_REQUEST
                 "Product doesn't exist in database")
    | Some product =>
        let cart :=
          Cart.mk (Cart.email cart)
                  (Cart.cartItems cart ++ [LineItem.mk product quantity]) in
        await _ <- CartModel.save cart;
        ret cart
    end.

Definition updateProductInCart `{Mongo} (user : User.t) (productId : string)
  (quantity : Z) : Async Cart.t :=
  await cart <- CartModel.findOne (User.email user);
  match cart with
  | None =>
      throw (mkApiError httpStatus.BAD_REQUEST
        "User does not have a cart. Use POST to create cart and add a product")
  | Some cart =>
      await product <- ProductModel.findById productId;
      match product with
      | None =>
          throw (mkApiError httpStatus.BAD_REQUEST
                   "Product doesn't exist in database")
      | Some _ =>
          let exists_ := find (matchesId productId) (Cart.cartItems cart) in
          match exists_ with
          | None => throw (mkApiError httpStatus.BAD_REQUEST "Product not in cart")
          | Some _ =>
              let cartItems :=
                forEach
                  (fun items obj index =>
                     if matchesId productId obj
                     then <[index := LineItem.mk (LineItem.product obj) quantity]>
                            items
                     else items)
                  (Cart.cartItems cart) (Cart.cartItems cart) in
              let cart := Cart.mk (Cart.email cart) cartItems in
              await _ <- CartModel.save cart;
              ret cart
          end
      end
  end.

Definition deleteProductFromCart `{Mongo} (user : User.t) (productId : string)
  : Async unit :=
  await cart <- CartModel.findOne (User.email user);
  match cart with
  | None =>
      throw (mkApiError httpStatus.BAD_REQUEST "User does not have a cart")
  | Some cart =>
      let '(exists_, pos) :=
        forEach
          (fun '(exists_, pos) obj index =>
             if equalsId productId obj then (true, index) else (exists_, pos))
          (Cart.cartItems cart) (false, 0%nat) in
      if negb exists_ then
        throw (mkApiError httpStatus.BAD_REQUEST "Product not in cart")
      else
        let cart :=
          Cart.mk (Cart.email cart) (splice1 pos (Cart.cartItems cart)) in
        await _ <- CartModel.save cart;
        ret tt
  end.

Definition checkout `{Mongo} (cfg : config.t) (user : User.t) : Async Cart.t :=
  await cart <- CartModel.findOne (User.email user);
  match cart with
  | None => throw (mkApiError httpStatus.NOT_FOUND "Cart not found")
  | Some cart =>
      if (length (Cart.cartItems cart) =? 0)%nat then
        throw (mkApiError httpStatus.BAD_REQUEST "No products in cart")
      else
        await hasAddress <- UserModel.hasSetNonDefaultAddress cfg user;
        if negb hasAddress then
          throw (mkApiError httpStatus.BAD_REQUEST "No valid address")
        else
          let walletMoney := User.walletMoney user in
          let total :=
            forEach
              (fun total obj _ =>
                 (total
                  + Product.cost (LineItem.product obj)
                    * Number.ofInteger (LineItem.quantity obj))%float)
              (Cart.cartItems cart) 0%float in
          let finalBalance := (walletMoney - total)%float in
          if (finalBalance <? 0)%float then
            throw (mkApiError httpStatus.BAD_REQUEST "Insufficient balance")
          else
            let user :=
              User.mk (User.name user) (User.email user) finalBalance
                      (User.address user) in
            await _ <- UserModel.save user;
            let cart := Cart.mk (Cart.email cart) [] in
            await _ <- CartModel.save cart;
            ret cart
  end.

(** ** The user schema: the password validator *)

Module userSchema.
Import Stdlib.Strings.Ascii.

(** [\d] *)
Definition isDigit (c : ascii) : bool :=
  (("0" <=? c) && (c <=? "9"))%char.

(** [[a-zA-Z]] *)
Definition isLetter (c : ascii) : bool :=
  ((("a" <=? c) && (c <=? "z")) || (("A" <=? c) && (c <=? "Z")))%char.

(** [value.match(re)] is not null, for [re] a single character class. *)
Fixpoint matchClass (cls : ascii -> bool) (value : string) : bool :=
  match value with
  | EmptyString => false
  | String c rest => cls c || matchClass cls rest
  end.

(** What a validator does: return, or throw an [Error] with a message. *)
Inductive Validation : Type :=
| Returns
| Throws (message : string).

(** The [validate(value)] of the [password] path. *)
Definition password_validate (value : string) : Validation :=
  if negb (matchClass isDigit value) || negb (matchClass isLetter value) then
    Throws "Password must contain at least one letter and one number"
  else Returns.
End userSchema.

(** ** Vocabulary for the statements *)

(** What the quantity loop of [updateProductInCart] does to one item. *)
Definition setQuantity `{Mongo} (productId : string) (quantity : Z)
  (obj : LineItem.t) : LineItem.t :=
  if matchesId productId obj
  then LineItem.mk (LineItem.product obj) quantity
  else obj.

(** The order total: cost times quantity, added up over the items from
    first to last, starting from 0, in binary64. *)
Definition sumCostQuantity `{Mongo} (items : list LineItem.t) : float :=
  fold_left
    (fun total item =>
       (total
        + Product.cost (LineItem.product item)
          * Number.ofInteger (LineItem.quantity item))%float)
    items 0%float.

(** ** The errors the service raises *)

Module Err.
Definition noCart : ApiError :=
  mkApiError httpStatus.NOT_FOUND "User does not have a cart".
Definition alreadyInCart : ApiError :=
  mkApiError httpStatus.BAD_REQUEST
    "Product already in cart. Use the cart sidebar to update or remove product from cart".
Definition unknownProduct : ApiError :=
  mkApiError httpStatus.BAD_REQUEST "Product doesn't exist in database".
Definition noCartUsePost : ApiError :=
  mkApiError httpStatus.BAD_REQUEST
    "User does not have a cart. Use POST to create cart and add a product".
Definition notInCart : ApiError :=
  mkApiError httpStatus.BAD_REQUEST "Product not in cart".
Definition noCartToDeleteFrom : ApiError :=
  mkApiError httpStatus.BAD_REQUEST "User does not have a cart".
Definition cartNotFound : ApiError :=
  mkApiError httpStatus.NOT_FOUND "Cart not found".
Definition noProducts : ApiError :=
  mkApiError httpStatus.BAD_REQUEST "No products in cart".
Definition noValidAddress : ApiError :=
  mkApiError httpStatus.BAD_REQUEST "No valid address".
Definition insufficientBalance : ApiError :=
  mkApiError httpStatus.BAD_REQUEST "Insufficient balance".
(** The error thrown when [Cart.create] has failed. *)
Definition cartNotCreated : ApiError :=
  mkApiError httpStatus.INTERNAL_SERVER_ERROR "".
(** The rejection of a query whose product id is not an id. *)
Definition notAnId (productId : string) : Error :=
  CastError "ObjectId" productId "_id".
(** The rejection of [user.save()] when the new balance is NaN. *)
Definition balanceNotANumber : Error := ValidationError "walletMoney".
End Err.

(** The world after the cart of [email] has been set to [items]. *)
Definition withCart `{Mongo} (email : string) (items : list LineItem.t)
  (w : World) : World :=
  mkWorld (<[email := items]> (carts w)) (products w) (users w).

Definition withUser `{Mongo} (user : User.t) (w : World) : World :=
  mkWorld (carts w) (products w) (<[User.email user := user]> (users w)).

Definition debit (user : User.t) (total : float) : User.t :=
  User.mk (User.name user) (User.email user)
          (User.walletMoney user - total)%float (User.address user).

(** The hex strings of the product ids of the line items, in order. *)
Definition productIds `{Mongo} (items : list LineItem.t) : list string :=
  map (fun obj => ObjectId_toString (Product._id (LineItem.product obj))) items.

(** At most one line item per distinct product id. *)
Definition uniqueItems `{Mongo} (items : list LineItem.t) : Prop :=
  NoDup (productIds items).

(** How many line items the cart holds for [productId]. *)
Definition countFor `{Mongo} (productId : string) (items : list LineItem.t)
  : nat :=
  length (List.filter (matchesId productId) items).

(** The cart of [email] after running [m] still has unique items. *)
Definition keepsUnique `{Mongo} {A : Type} (email : string) (m : Async A)
  (w : World) : Prop :=
  forall items', carts (snd (m w)) !! email = Some items' -> uniqueItems items'.

(** A cart that [m] resolves with has unique items. *)
Definition resolvesUnique `{Mongo} (m : Async Cart.t) (w : World) : Prop :=
  forall cart w', m w = (Resolved cart, w') -> uniqueItems (Cart.cartItems cart).

(** [w'] differs from [w] at most in the cart and the user document
    stored under [email]. *)
Definition sameElsewhere `{Mongo} (email : string) (w w' : World) : Prop :=
  products w' = products w
  /\ forall e, e <> email ->
       carts w' !! e = carts w !! e /\ users w' !! e = users w !! e.

(** ** A sample instance: ids of 24 hex digits *)

Module HexIds.
Import Stdlib.Strings.Ascii.

Definition isLowerHex (c : ascii) : bool :=
  ((("0" <=? c) && (c <=? "9")) || (("a" <=? c) && (c <=? "f")))%char.

(** ASCII lower case of one character. *)
Definition lowerChar (c : ascii) : ascii :=
  if (("A" <=? c) && (c <=? "Z"))%char
  then ascii_of_nat (nat_of_ascii c + 32)
  else c.

Fixpoint toLowerCase (s : string) : string :=
  match s with
  | EmptyString => EmptyString
  | String c rest => String (lowerChar c) (toLowerCase rest)
  end.

Fixpoint allLowerHex (s : string) : bool :=
  match s with
  | EmptyString => true
  | String c rest => isLowerHex c && allLowerHex rest
  end.

(** 24 lower-case hex digits. *)
Definition isHexString (s : string) : bool :=
  (String.length s =? 24)%nat && allLowerHex s.

Definition t : Type := { s : string | Is_true (isHexString s) }.

Definition toHexString (id : t) : string := proj1_sig id.

(** [s] as an id when it is a hex string. *)
Definition ofHexString (s : string) : option t :=
  match isHexString s as b
        return (Is_true b -> t) -> option t with
  | true => fun k => Some (k I)
  | false => fun _ => None
  end (fun H => exist _ s H).

(** A string of 24 hex digits, in either case, is an id. *)
Definition cast (s : string) : option t := ofHexString (toLowerCase s).

(** Cart creation fails for one email only. *)
Definition failsFor (email : string) : bool :=
  String.eqb email "zoe@qkart.io".

Definition mongo : Mongo.
Proof.
  refine {| ObjectId := t;
            ObjectId_toString := toHexString;
            ObjectId_cast := cast;
            createFails := failsFor |}.
  abstract
    (intros [s Hs]; unfold cast, toHexString; simpl;
     assert (forall c, isLowerHex c = true -> lowerChar c = c) as Hchar
       by (intros c; destruct c as [[] [] [] [] [] [] [] []]; vm_compute;
           intros Hc; first [reflexivity | discriminate Hc]);
     assert (forall s0, allLowerHex s0 = true -> toLowerCase s0 = s0) as Hlow
       by (induction s0 as [|c rest IH]; simpl; [done |];
           intros [Hc Hrest]%andb_true_iff; by rewrite (Hchar c Hc), IH);
     assert (toLowerCase s = s) as ->
       by (apply Hlow; apply Is_true_true in Hs; unfold isHexString in Hs;
           by apply andb_true_iff in Hs as [_ Hs]);
     unfold ofHexString;
     assert (forall b (k : Is_true b -> t) (H : Is_true b),
               match b return (Is_true b -> t) -> option t with
               | true => fun k => Some (k I)
               | false => fun _ => None
               end k = Some (k H)) as Hmatch
       by (intros [] k H; [by destruct H | destruct H]);
     apply (Hmatch (isHexString s) (fun H => exist _ s H) Hs)).
Defined.
End HexIds.

(** ** Sample documents *)

Module Sample.
#[local] Existing Instance HexIds.mongo.

Definition shirtHex : string := "5f71c1ca04c69a5874e9fd45".
Definition mugHex : string := "5f71c1ca04c69a5874e9fd46".
Definition retiredHex : string := "5f71c1ca04c69a5874e9fd47".
(** the id of no product *)
Definition ghostHex : string := "5f71c1ca04c69a5874e9fd48".
(** the shirt's id spelled in upper case *)
Definition shirtUpper : string := "5F71C1CA04C69A5874E9FD45".
(** not an id *)
Definition malformed : string := "p-ghost".

Definition shirtId : HexIds.t := exist _ shirtHex I.
Definition mugId : HexIds.t := exist _ mugHex I.
Definition retiredId : HexIds.t := exist _ retiredHex I.
Definition ghostId : HexIds.t := exist _ ghostHex I.

Definition cfg : config.t := config.mk "ADDRESS_NOT_SET".
Definition shirt : Product.t := Product.mk shirtId 100.
Definition mug : Product.t := Product.mk mugId 40.
Definition alice : User.t :=
  User.mk "Alice" "alice@qkart.io" 500 "12 Main Street, Springfield".
Definition bob : User.t :=
  User.mk "Bob" "bob@qkart.io" 500 "ADDRESS_NOT_SET".
Definition carol : User.t :=
  User.mk "Carol" "carol@qkart.io" 100 "7 Hill Road, Shelbyville".
Definition dave : User.t :=
  User.mk "Dave" "dave@qkart.io" 300 "3 Lake View, Capital City".
(** the user whose cart cannot be created *)
Definition zoe : User.t :=
  User.mk "Zoe" "zoe@qkart.io" 500 "1 Far End, North Haverbrook".
Definition threeShirts : list LineItem.t := [LineItem.mk shirt 3].
Definition retired : Product.t := Product.mk retiredId 15.
Definition catalog : list Product.t := [shirt; mug].

(** Nobody has a cart yet. *)
Definition fresh : World := mkWorld ∅ catalog ∅.

(** Alice, Bob, Carol and Dave each hold three shirts. *)
Definition shopping : World :=
  mkWorld
    {[ "alice@qkart.io" := threeShirts;
       "bob@qkart.io" := threeShirts;
       "carol@qkart.io" := threeShirts;
       "dave@qkart.io" := threeShirts ]}
    catalog ∅.

(** Alice and Bob have carts with nothing in them. *)
Definition emptied : World :=
  mkWorld {[ "alice@qkart.io" := []; "bob@qkart.io" := [] ]} catalog ∅.

(** Alice holds a shirt and two mugs. *)
Definition mixed : World :=
  mkWorld {[ "alice@qkart.io" := [LineItem.mk shirt 1; LineItem.mk mug 2] ]}
          catalog ∅.

(** Alice still holds a product that has left the catalog. *)
Definition stale : World :=
  mkWorld {[ "alice@qkart.io" := [LineItem.mk retired 2] ]} catalog ∅.
End Sample.

(** ** More sample data *)

Module Scenario.
#[local] Existing Instance HexIds.mongo.

End Scenario.

(** ** Binary64 subtraction and the sign test

    Facts about [x - y < 0] on doubles, from the specification of the
    primitive operations. *)

Module Binary64.
Import SpecFloat FloatOps FloatAxioms.

Lemma digits2_pos_size p : digits2_pos p = Pos.size p.
Proof. induction p; simpl; congruence. Qed.

Lemma Zpos_iter_xO m d : Zpos (Pos.iter xO m d) = Zpos m * 2 ^ Zpos d.
Proof.
  induction d as [|d IH] using Pos.peano_ind.
  - simpl. lia.
  - rewrite Pos.iter_succ, Pos2Z.inj_xO, IH, Pos2Z.inj_succ, Z.pow_succ_r by lia.
    lia.
Qed.

Lemma shl_align_value m e e' :
  e' <= e -> Zpos (fst (shl_align m e e')) = Zpos m * 2 ^ (e - e').
Proof.
  intros Hle. unfold shl_align.
  destruct (e' - e) as [|d|d] eqn:Hd; simpl.
  - replace (e - e') with 0 by lia. lia.
  - lia.
  - rewrite Zpos_iter_xO. f_equal. f_equal. lia.
Qed.

(** A valid finite double has at most 53 digits, and exactly 53 above
    the smallest exponent. *)
Lemma bounded_digits m e :
  bounded prec emax m e = true ->
  Zpos m < 2 ^ 53 /\ emin <= e /\ (emin < e -> 2 ^ 52 <= Zpos m).
Proof.
  unfold bounded, canonical_mantissa, fexp, SpecFloat.emin, prec, emax.
  intros [Hcan _]%andb_true_iff. apply Z.eqb_eq in Hcan.
  rewrite digits2_pos_size in Hcan.
  pose proof (Pos.size_gt m) as Hgt. pose proof (Pos.size_le m) as Hle.
  apply Pos2Z.pos_lt_pos in Hgt. apply Pos2Z.pos_le_pos in Hle.
  rewrite Pos2Z.inj_pow in Hgt, Hle. rewrite Pos2Z.inj_xO in Hle.
  set (d := Zpos (Pos.size m)) in *.
  assert (0 < d) by (subst d; lia).
  split; [| split].
  - assert (d <= 53) by lia.
    eapply Z.lt_le_trans; [exact Hgt |].
    apply Z.pow_le_mono_r; lia.
  - lia.
  - intros He. assert (d = 53) as Hd by lia. rewrite Hd in Hle.
    change (2 ^ 53) with (2 * 2 ^ 52) in Hle. lia.
Qed.

Lemma binary_round_aux_sign s m e l :
  match binary_round_aux prec emax s m e l with
  | S754_zero s' | S754_infinity s' | S754_finite s' _ _ => s' = s
  | S754_nan => True
  end.
Proof.
  unfold binary_round_aux.
  destruct (shr_fexp prec emax m e l) as [mrs' e'].
  destruct (shr_fexp prec emax _ e' loc_Exact) as [mrs'' e''].
  destruct (shr_m mrs''); [done | | done].
  by destruct (_ <=? _).
Qed.

Lemma binary_round_sign s m e :
  match binary_round prec emax s m e with
  | S754_zero s' | S754_infinity s' | S754_finite s' _ _ => s' = s
  | S754_nan => True
  end.
Proof.
  unfold binary_round. destruct (shl_align _ _ _) as [mz ez].
  apply binary_round_aux_sign.
Qed.

Lemma binary_normalize_nonneg m e :
  0 <= m ->
  SFltb (binary_normalize prec emax m e false) (S754_zero false) = false.
Proof.
  intros Hm. destruct m as [|p|p]; simpl; [done | | lia].
  pose proof (binary_round_sign false p e) as Hs.
  destruct (binary_round prec emax false p e) as [s|s| |s m' e']; try done;
    by rewrite Hs.
Qed.

(** The exact difference of two valid doubles, on their common exponent,
    is not negative when the subtrahend compares below or equal. *)
Lemma aligned_difference_nonneg sx mx ex sy my ey :
  bounded prec emax mx ex = true ->
  bounded prec emax my ey = true ->
  SFleb (S754_finite sy my ey) (S754_finite sx mx ex) = true ->
  0 <= cond_Zopp sx (Zpos (fst (shl_align mx ex (Z.min ex ey))))
       - cond_Zopp sy (Zpos (fst (shl_align my ey (Z.min ex ey)))).
Proof.
  intros Hx Hy Hle.
  apply bounded_digits in Hx as (Hxlt & Hxmin & Hxnorm).
  apply bounded_digits in Hy as (Hylt & Hymin & Hynorm).
  rewrite !shl_align_value by lia.
  unfold SFleb, SFcompare in Hle.
  assert (forall m e e', e' < e -> 2 ^ 52 <= Zpos m ->
                         2 ^ 53 <= Zpos m * 2 ^ (e - e')) as Hbig.
  { intros m e e' He Hm.
    assert (2 ^ 1 <= 2 ^ (e - e')) by (apply Z.pow_le_mono_r; lia).
    change (2 ^ 53) with (2 ^ 52 * 2 ^ 1). nia. }
  destruct sx, sy; simpl in *; try done.
  - destruct (Z.compare_spec ey ex) as [Heq|Hlt|Hgt]; try done.
    + subst ey. rewrite Z.min_id, Z.sub_diag, !Z.mul_1_r.
      rewrite Pos.compare_cont_spec in Hle; simpl in Hle.
      destruct (Pos.compare_spec my mx); simpl in Hle; try done; lia.
    + rewrite Z.min_l by lia. rewrite Z.sub_diag, Z.mul_1_r.
      specialize (Hbig my ey ex Hgt (Hynorm ltac:(lia))). lia.
  - assert (0 < Zpos mx * 2 ^ (ex - Z.min ex ey)) by
      (apply Z.mul_pos_pos; [lia | apply Z.pow_pos_nonneg; lia]).
    assert (0 < Zpos my * 2 ^ (ey - Z.min ex ey)) by
      (apply Z.mul_pos_pos; [lia | apply Z.pow_pos_nonneg; lia]).
    lia.
  - destruct (Z.compare_spec ey ex) as [Heq|Hlt|Hgt]; try done.
    + subst ey. rewrite Z.min_id, Z.sub_diag, !Z.mul_1_r.
      rewrite Pos.compare_cont_spec in Hle; simpl in Hle.
      destruct (Pos.compare_spec my mx); simpl in Hle; try done; lia.
    + rewrite Z.min_r by lia. rewrite Z.sub_diag, Z.mul_1_r.
      specialize (Hbig mx ex ey Hlt (Hxnorm ltac:(lia))). lia.
Qed.

Lemma SFsub_not_negative x y :
  valid_binary x = true ->
  valid_binary y = true ->
  SFleb y x = true ->
  SFltb (SF64sub x y) (S754_zero false) = false.
Proof.
  intros Hx Hy Hle.
  destruct x as [sx|sx| |sx mx ex], y as [sy|sy| |sy my ey];
    try (unfold SF64sub, SFsub; apply binary_normalize_nonneg;
         by apply aligned_difference_nonneg);
    repeat match goal with s : bool |- _ => destruct s end; done.
Qed.

Lemma sub_not_negative (x y : float) :
  (y <=? x)%float = true -> (x - y <? 0)%float = false.
Proof.
  rewrite leb_spec, ltb_spec, sub_spec.
  change (Prim2SF 0) with (S754_zero false).
  apply SFsub_not_negative; apply Prim2SF_valid.
Qed.

Lemma eqb_leb (x y : float) : (x =? y)%float = true -> (y <=? x)%float = true.
Proof.
  rewrite FloatAxioms.eqb_spec, leb_spec.
  unfold SFeqb, SFleb.
  destruct (Prim2SF x) as [sx|sx| |sx mx ex], (Prim2SF y) as [sy|sy| |sy my ey];
    simpl;
    repeat match goal with s : bool |- _ => destruct s end; try done.
  - rewrite (Z.compare_antisym ex ey).
    destruct (ex ?= ey) eqn:He; simpl; try done.
    rewrite !Pos.compare_cont_spec; simpl.
    rewrite (Pos.compare_antisym mx my). by destruct (mx ?= my)%positive.
  - rewrite (Z.compare_antisym ex ey).
    destruct (ex ?= ey) eqn:He; simpl; try done.
    rewrite !Pos.compare_cont_spec; simpl.
    rewrite (Pos.compare_antisym mx my). by destruct (mx ?= my)%positive.
Qed.

Lemma iter_pos_invariant {A} (P : A -> Prop) (f : A -> A) :
  (forall x, P x -> P (f x)) -> forall p x, P x -> P (iter_pos f p x).
Proof.
  intros Hf. induction p as [p IH|p IH|]; intros x Hx; simpl; auto.
Qed.

Lemma shr_1_nonneg mrs : 0 <= shr_m mrs -> 0 <= shr_m (shr_1 mrs).
Proof.
  destruct mrs as [m r s]. simpl.
  destruct m as [|[p|p|]|p]; simpl; lia.
Qed.

Lemma shr_fexp_nonneg m e l :
  0 <= m -> 0 <= shr_m (fst (shr_fexp prec emax m e l)).
Proof.
  intros Hm. unfold shr_fexp, shr.
  assert (0 <= shr_m (shr_record_of_loc m l)) as H0.
  { by destruct l as [|[]]. }
  destruct (_ - e) as [|n|n]; simpl; try done.
  by apply iter_pos_invariant; [apply shr_1_nonneg |].
Qed.

Lemma round_nearest_even_nonneg m l : 0 <= m -> 0 <= round_nearest_even m l.
Proof.
  intros Hm. destruct l as [|[]]; simpl; try lia.
  destruct (Z.even m); lia.
Qed.

Lemma binary_round_aux_not_nan s m e l :
  0 <= m -> binary_round_aux prec emax s m e l <> S754_nan.
Proof.
  intros Hm. unfold binary_round_aux.
  pose proof (shr_fexp_nonneg m e l Hm) as H1.
  destruct (shr_fexp prec emax m e l) as [mrs' e']. simpl in H1.
  pose proof (shr_fexp_nonneg _ e' loc_Exact
                (round_nearest_even_nonneg _ (loc_of_shr_record mrs') H1)) as H2.
  destruct (shr_fexp prec emax _ e' loc_Exact) as [mrs'' e'']. simpl in H2.
  destruct (shr_m mrs''); [done | by destruct (_ <=? _) | lia].
Qed.

Lemma binary_normalize_not_nan m e :
  binary_normalize prec emax m e false <> S754_nan.
Proof.
  destruct m as [|p|p]; simpl; [done | |];
    unfold binary_round; destruct (shl_align _ _ _) as [mz ez];
    by apply binary_round_aux_not_nan.
Qed.

(** A difference of doubles is NaN only for a NaN operand or for two
    infinities of the same sign. *)
Lemma SFsub_nan x y :
  SF64sub x y = S754_nan ->
  x = S754_nan \/ y = S754_nan
  \/ exists s, x = S754_infinity s /\ y = S754_infinity s.
Proof.
  destruct x as [sx|sx| |sx mx ex], y as [sy|sy| |sy my ey]; simpl;
    try (intros Hnan; by apply binary_normalize_not_nan in Hnan);
    repeat match goal with s : bool |- _ => destruct s end;
    try done; eauto.
Qed.

Lemma is_nan_spec (x : float) : is_nan x = true <-> Prim2SF x = S754_nan.
Proof.
  unfold is_nan. rewrite negb_true_iff, eqb_spec. unfold SFeqb, SFcompare.
  destruct (Prim2SF x) as [[]|[]| |[] m e]; try done;
    by rewrite Z.compare_refl, Pos.compare_cont_refl.
Qed.

Lemma is_nan_false (x : float) : is_nan x = false <-> Prim2SF x <> S754_nan.
Proof.
  rewrite <- is_nan_spec. by destruct (is_nan x).
Qed.

Lemma is_finite_spec (x : float) :
  is_finite x = true ->
  Prim2SF x <> S754_nan /\ forall s, Prim2SF x <> S754_infinity s.
Proof.
  unfold is_finite. rewrite negb_true_iff, orb_false_iff.
  intros [Hnan Hinf]. split; [by apply is_nan_false |].
  intros s Hx. unfold is_infinity in Hinf.
  rewrite eqb_spec, abs_spec, Hx in Hinf.
  by change (Prim2SF infinity) with (S754_infinity false) in Hinf.
Qed.

Lemma leb_not_nan (x y : float) :
  (x <=? y)%float = true -> is_nan x = false /\ is_nan y = false.
Proof.
  rewrite leb_spec, !is_nan_false. unfold SFleb, SFcompare.
  destruct (Prim2SF x), (Prim2SF y); done.
Qed.

(** Taking a number from a finite number gives a number. *)
Lemma sub_is_number (x y : float) :
  is_finite x = true -> is_nan y = false -> is_nan (x - y) = false.
Proof.
  intros [Hx Hinf]%is_finite_spec Hy%is_nan_false.
  apply is_nan_false. rewrite sub_spec.
  intros [Hnan | [Hnan | (s & Hxs & _)]]%SFsub_nan; try done.
  by apply (Hinf s).
Qed.


Lemma eqb_not_nan (x y : float) :
  (x =? y)%float = true -> is_nan y = false.
Proof.
  rewrite eqb_spec, is_nan_false. unfold SFeqb, SFcompare.
  destruct (Prim2SF x), (Prim2SF y); done.
Qed.
End Binary64.

(** ** Ids *)

Section Ids.
Context `{Mongo}.

Lemma ObjectId_toString_inj (a b : ObjectId) :
  ObjectId_toString a = ObjectId_toString b -> a = b.
Proof.
  intros Heq.
  pose proof (ObjectId_cast_toString a) as Ha.
  rewrite Heq, ObjectId_cast_toString in Ha. by injection Ha.
Qed.

Lemma sameId_cast productId (p : Product.t) :
  ProductModel.sameId productId p = true ->
  ObjectId_cast productId = Some (Product._id p).
Proof.
  unfold ProductModel.sameId. intros <-%String.eqb_eq.
  apply ObjectId_cast_toString.
Qed.

Lemma findById_id productId (ps : list Product.t) product :
  find (ProductModel.sameId productId) ps = Some product ->
  ObjectId_toString (Product._id product) = productId.
Proof.
  intros [_ Hp]%find_some. by apply String.eqb_eq in Hp.
Qed.

(** A product found by the exact hex string of its id is the product
    [findById] finds. *)
Lemma find_sameId_hasId productId (ps : list Product.t) product :
  find (ProductModel.sameId productId) ps = Some product ->
  ObjectId_cast productId = Some (Product._id product)
  /\ find (ProductModel.hasId (Product._id product)) ps = Some product.
Proof.
  intros Hfind.
  pose proof (findById_id _ _ _ Hfind) as Hid.
  split; [rewrite <- Hid; apply ObjectId_cast_toString |].
  induction ps as [|q ps IH]; simpl in *; [done |].
  assert (ProductModel.hasId (Product._id product) q
          = ProductModel.sameId productId q) as ->.
  { unfold ProductModel.hasId, ProductModel.sameId.
    destruct (String.eqb_spec (ObjectId_toString (Product._id q)) productId)
      as [Heq|Hne].
    - apply bool_decide_eq_true. apply ObjectId_toString_inj. congruence.
    - apply bool_decide_eq_false. intros Heq. apply Hne. congruence. }
  destruct (ProductModel.sameId productId q); [done | by apply IH].
Qed.

Lemma find_sameId_None productId (ps : list Product.t) id :
  find (ProductModel.sameId productId) ps = None ->
  ObjectId_toString id = productId ->
  find (ProductModel.hasId id) ps = None.
Proof.
  intros Hfind Hid.
  induction ps as [|q ps IH]; simpl in *; [done |].
  destruct (ProductModel.sameId productId q) eqn:Hq; [done |].
  unfold ProductModel.hasId, ProductModel.sameId in *.
  rewrite bool_decide_eq_false_2; [by apply IH |].
  intros Heq. apply String.eqb_neq in Hq. apply Hq. congruence.
Qed.

Lemma matchesId_cast productId (obj : LineItem.t) :
  matchesId productId obj = true ->
  ObjectId_cast productId = Some (Product._id (LineItem.product obj)).
Proof.
  unfold matchesId. intros <-%String.eqb_eq. apply ObjectId_cast_toString.
Qed.

Lemma matchesId_equalsId productId (obj : LineItem.t) :
  matchesId productId obj = true -> equalsId productId obj = true.
Proof.
  intros Hm. unfold equalsId, ObjectId_equals.
  apply bool_decide_eq_true. by apply matchesId_cast.
Qed.

(** For a product id in the spelling of the hex string of its id, the
    two tests agree. *)
Lemma equalsId_matchesId productId id (obj : LineItem.t) :
  ObjectId_toString id = productId ->
  equalsId productId obj = matchesId productId obj.
Proof.
  intros <-. unfold equalsId, ObjectId_equals, matchesId.
  rewrite ObjectId_cast_toString.
  destruct (String.eqb_spec
              (ObjectId_toString (Product._id (LineItem.product obj)))
              (ObjectId_toString id)) as [Heq|Hne].
  - apply bool_decide_eq_true. f_equal. symmetry.
    by apply ObjectId_toString_inj.
  - apply bool_decide_eq_false. intros [= ->]. by apply Hne.
Qed.
End Ids.

(** ** The loops of the service, characterised *)

Section Service.
Context `{Mongo}.

(** A flag set by [forEach] whenever an item passes [test]. *)
Lemma forEach_from_exist (test : LineItem.t -> bool) (items : list LineItem.t)
  (index : nat) (b : bool) :
  forEach_from
    (fun exist obj (_ : nat) => if test obj then true else exist)
    items index b
  = b || existsb test items.
Proof.
  revert index b.
  induction items as [|obj rest IH]; intros index b; simpl.
  - by rewrite orb_false_r.
  - rewrite IH. by destruct (test obj), b.
Qed.

Lemma existsb_matchesId productId (items : list LineItem.t) :
  existsb (matchesId productId) items = true
  <-> productId ∈ productIds items.
Proof.
  unfold productIds.
  induction items as [|obj rest IH]; simpl.
  - split; [done | by intros ?%elem_of_nil].
  - rewrite orb_true_iff, IH, elem_of_cons.
    unfold matchesId. rewrite String.eqb_eq.
    split; (intros [Hm|Hm]; [left; congruence | by right]).
Qed.

Lemma existsb_matchesId_false productId (items : list LineItem.t) :
  existsb (matchesId productId) items = false
  <-> productId ∉ productIds items.
Proof.
  rewrite <- existsb_matchesId.
  by destruct (existsb (matchesId productId) items).
Qed.

Lemma find_None_existsb (test : LineItem.t -> bool) (items : list LineItem.t) :
  find test items = None <-> existsb test items = false.
Proof.
  induction items as [|obj rest IH]; simpl; [done |].
  destruct (test obj); simpl; [split; discriminate | done].
Qed.

Lemma forEach_from_setQuantity productId (quantity : Z)
  (rest done_ : list LineItem.t) :
  forEach_from
    (fun items obj index =>
       if matchesId productId obj
       then <[index := LineItem.mk (LineItem.product obj) quantity]> items
       else items)
    rest (length done_) (done_ ++ rest)
  = done_ ++ map (setQuantity productId quantity) rest.
Proof.
  revert done_.
  induction rest as [|obj rest IH]; intros done_; simpl; [done |].
  unfold setQuantity at 1.
  destruct (matchesId productId obj).
  - rewrite (insert_app_r_alt done_ (obj :: rest)) by done.
    rewrite Nat.sub_diag. simpl.
    specialize (IH (done_ ++ [LineItem.mk (LineItem.product obj) quantity])).
    rewrite length_app, Nat.add_1_r, <- app_assoc in IH. simpl in IH.
    by rewrite IH, <- app_assoc.
  - specialize (IH (done_ ++ [obj])).
    rewrite length_app, Nat.add_1_r, <- app_assoc in IH. simpl in IH.
    by rewrite IH, <- app_assoc.
Qed.

Lemma forEach_setQuantity productId (quantity : Z)
  (items : list LineItem.t) :
  forEach
    (fun items obj index =>
       if matchesId productId obj
       then <[index := LineItem.mk (LineItem.product obj) quantity]> items
       else items)
    items items
  = map (setQuantity productId quantity) items.
Proof. exact (forEach_from_setQuantity productId quantity items []). Qed.

(** The [(exists, pos)] pair of [deleteProductFromCart]: [pos] ends on
    the last position that passes the test. *)
Lemma forEach_from_lastMatch (test : LineItem.t -> bool)
  (items : list LineItem.t) (index : nat)
  (b : bool) (p : nat) (exists_ : bool) (pos : nat) :
  forEach_from
    (fun '(exists_, pos) obj index =>
       if test obj then (true, index) else (exists_, pos))
    items index (b, p) = (exists_, pos) ->
  exists_ = b || existsb test items
  /\ (existsb test items = false -> pos = p)
  /\ (existsb test items = true ->
      exists i obj,
        pos = (index + i)%nat
        /\ items !! i = Some obj
        /\ test obj = true
        /\ forall j obj', (i < j)%nat -> items !! j = Some obj' ->
                          test obj' = false).
Proof.
  revert index b p.
  induction items as [|obj rest IH]; intros index b p; simpl.
  - intros [= <- <-]. rewrite orb_false_r. by split_and!.
  - destruct (test obj) eqn:Hm; simpl; intros Hrun;
      apply IH in Hrun as (Hex & Hnone & Hsome).
    + split_and!; [by rewrite Hex, orb_true_r | done |].
      intros _.
      destruct (existsb test rest) eqn:Hrest.
      * destruct (Hsome eq_refl) as (i & obj0 & -> & Hi & Hobj0 & Hlast).
        exists (S i), obj0. split_and!; [lia | done | done |].
        intros [|j] obj' Hj; [lia |]. simpl. apply Hlast. lia.
      * exists 0%nat, obj. split_and!; [by rewrite Hnone; [lia |] | done | done |].
        intros [|j] obj' Hj; [lia |]. simpl. intros Hin.
        apply not_true_is_false. intros Hobj'.
        assert (existsb test rest = true) as Habs.
        { apply existsb_exists. exists obj'. split; [| done].
          apply list_elem_of_In. by eapply list_elem_of_lookup_2. }
        congruence.
    + split_and!; [done | done |].
      intros Hrest.
      destruct (Hsome Hrest) as (i & obj0 & -> & Hi & Hobj0 & Hlast).
      exists (S i), obj0. split_and!; [lia | done | done |].
      intros [|j] obj' Hj; [lia |]. simpl. apply Hlast. lia.
Qed.

Lemma forEach_from_total (items : list LineItem.t) (index : nat) (t : float) :
  forEach_from
    (fun total obj (_ : nat) =>
       (total
        + Product.cost (LineItem.product obj)
          * Number.ofInteger (LineItem.quantity obj))%float)
    items index t
  = fold_left
      (fun total item =>
         (total
          + Product.cost (LineItem.product item)
            * Number.ofInteger (LineItem.quantity item))%float)
      items t.
Proof.
  revert index t.
  induction items as [|obj rest IH]; intros index t; simpl; [done |].
  by rewrite IH.
Qed.

Lemma withCart_withCart email items items' w :
  withCart email items' (withCart email items w) = withCart email items' w.
Proof. unfold withCart; simpl. by rewrite insert_insert_eq. Qed.

Lemma withCart_same email items w :
  carts w !! email = Some items -> withCart email items w = w.
Proof.
  intros Hcart. destruct w as [cs ps us]; unfold withCart; simpl in *.
  by rewrite insert_id.
Qed.

(** ** Each operation as a decision tree *)

Lemma getCartByUser_run user w :
  getCartByUser user w =
  match carts w !! User.email user with
  | None => (Resolved (inr (ApiErr Err.noCart)), w)
  | Some items => (Resolved (inl (Cart.mk (User.email user) items)), w)
  end.
Proof.
  unfold getCartByUser, try_catch, bind, CartModel.findOne; simpl.
  by destruct (carts w !! User.email user).
Qed.

Lemma addProductToCart_run user productId quantity w :
  addProductToCart user productId quantity w =
  let email := User.email user in
  match ObjectId_cast productId with
  | None => (Rejected (Err.notAnId productId), w)
  | Some id =>
      match carts w !! email with
      | None =>
          if createFails email then (Rejected Err.cartNotCreated, w)
          else
            match find (ProductModel.hasId id) (products w) with
            | None => (Rejected Err.unknownProduct, withCart email [] w)
            | Some product =>
                (Resolved (Cart.mk email [LineItem.mk product quantity]),
                 withCart email [LineItem.mk product quantity] w)
            end
      | Some items =>
          if existsb (matchesId productId) items then
            (Rejected Err.alreadyInCart, w)
          else
            match find (ProductModel.hasId id) (products w) with
            | None => (Rejected Err.unknownProduct, w)
            | Some product =>
                (Resolved
                   (Cart.mk email (items ++ [LineItem.mk product quantity])),
                 withCart email (items ++ [LineItem.mk product quantity]) w)
            end
      end
  end.
Proof.
  unfold addProductToCart, try_catch, bind, CartModel.findOne,
    CartModel.create, CartModel.save, ProductModel.findById, bind, ret, throw,
    forEach; simpl.
  destruct (ObjectId_cast productId) as [id|]; simpl; [| done].
  destruct (carts w !! User.email user) as [items|]; simpl.
  - rewrite forEach_from_exist; simpl.
    destruct (existsb (matchesId productId) items); [done |].
    by destruct (find (ProductModel.hasId id) (products w)).
  - destruct (createFails (User.email user)); simpl; [done |].
    destruct (find (ProductModel.hasId id) (products w)); [| done].
    unfold withCart; simpl. by rewrite insert_insert_eq.
Qed.

Lemma updateProductInCart_run user productId quantity w :
  updateProductInCart user productId quantity w =
  let email := User.email user in
  match carts w !! email with
  | None => (Rejected Err.noCartUsePost, w)
  | Some items =>
      match ObjectId_cast productId with
      | None => (Rejected (Err.notAnId productId), w)
      | Some id =>
          match find (ProductModel.hasId id) (products w) with
          | None => (Rejected Err.unknownProduct, w)
          | Some _ =>
              if existsb (matchesId productId) items then
                (Resolved
                   (Cart.mk email (map (setQuantity productId quantity) items)),
                 withCart email (map (setQuantity productId quantity) items) w)
              else (Rejected Err.notInCart, w)
          end
      end
  end.
Proof.
  unfold updateProductInCart, bind, CartModel.findOne, CartModel.save,
    ProductModel.findById, ret, throw; simpl.
  destruct (carts w !! User.email user) as [items|]; simpl; [| done].
  destruct (ObjectId_cast productId) as [id|]; simpl; [| done].
  destruct (find (ProductModel.hasId id) (products w)); [| done].
  destruct (find (matchesId productId) items) eqn:Hfind.
  - destruct (existsb (matchesId productId) items) eqn:Hex.
    + by rewrite forEach_setQuantity.
    + apply find_None_existsb in Hex. congruence.
  - apply find_None_existsb in Hfind. by rewrite Hfind.
Qed.

Lemma checkout_run cfg user w :
  checkout cfg user w =
  let email := User.email user in
  match carts w !! email with
  | None => (Rejected Err.cartNotFound, w)
  | Some [] => (Rejected Err.noProducts, w)
  | Some items =>
      if String.eqb (User.address user) (config.default_address cfg) then
        (Rejected Err.noValidAddress, w)
      else if (User.walletMoney user - sumCostQuantity items <? 0)%float then
        (Rejected Err.insufficientBalance, w)
      else if is_nan (User.walletMoney user - sumCostQuantity items) then
        (Rejected Err.balanceNotANumber, w)
      else
        (Resolved (Cart.mk email []),
         withCart email [] (withUser (debit user (sumCostQuantity items)) w))
  end.
Proof.
  unfold checkout, bind, CartModel.findOne, CartModel.save, UserModel.save,
    UserModel.hasSetNonDefaultAddress, ret, throw, forEach; simpl.
  destruct (carts w !! User.email user) as [[|obj rest]|]; simpl; [done | | done].
  destruct (String.eqb (User.address user) (config.default_address cfg));
    simpl; [done |].
  rewrite forEach_from_total.
  change (fold_left _ rest _) with (sumCostQuantity (obj :: rest)).
  destruct (_ <? 0)%float; [done |].
  by destruct (is_nan _).
Qed.

Lemma deleteProductFromCart_run user productId w :
  let email := User.email user in
  match carts w !! email with
  | None =>
      deleteProductFromCart user productId w
      = (Rejected Err.noCartToDeleteFrom, w)
  | Some items =>
      if existsb (equalsId productId) items then
        exists before obj after,
          items = before ++ obj :: after
          /\ equalsId productId obj = true
          /\ existsb (equalsId productId) after = false
          /\ deleteProductFromCart user productId w
             = (Resolved tt, withCart email (before ++ after) w)
      else
        deleteProductFromCart user productId w = (Rejected Err.notInCart, w)
  end.
Proof.
  unfold deleteProductFromCart, bind, CartModel.findOne, CartModel.save,
    ret, throw, forEach, splice1; simpl.
  destruct (carts w !! User.email user) as [items|]; simpl; [| done].
  destruct (forEach_from _ items 0%nat (false, 0%nat)) as [exists_ pos] eqn:Hrun.
  apply forEach_from_lastMatch in Hrun as (Hex & _ & Hsome).
  simpl in Hex. subst exists_.
  destruct (existsb (equalsId productId) items); simpl; [| done].
  destruct (Hsome eq_refl) as (i & obj & -> & Hi & Hobj & Hlast). simpl.
  exists (take i items), obj, (drop (S i) items).
  split_and!.
  - by rewrite take_drop_middle.
  - done.
  - apply not_true_is_false. intros (obj' & Hin & Hobj')%existsb_exists.
    apply list_elem_of_In, list_elem_of_lookup_1 in Hin as [j Hj].
    rewrite lookup_drop in Hj.
    rewrite (Hlast (S i + j)%nat obj' ltac:(lia) Hj) in Hobj'. discriminate.
  - by rewrite delete_take_drop.
Qed.

(** ** Cart retrieval *)

(** C1: a user without a cart should make [getCartByUser] fail with
    NotFound.  The service builds that error and then catches it: the
    call resolves, and the 404 error is the value it resolves with.  A
    user with a cart gets that cart.  The stores are left as they were in
    both cases. *)
Theorem getCartByUser_resolves_with_error_value user w :
  (carts w !! User.email user = None ->
   getCartByUser user w = (Resolved (inr (ApiErr Err.noCart)), w)
   /\ errorKind Err.noCart = NotFound)
  /\ (forall items,
        carts w !! User.email user = Some items ->
        getCartByUser user w
        = (Resolved (inl (Cart.mk (User.email user) items)), w)).
Proof.
  rewrite getCartByUser_run.
  split.
  - intros ->. by split.
  - by intros items ->.
Qed.

(** No input makes [getCartByUser] reject. *)
Lemma getCartByUser_never_rejects user w e w' :
  getCartByUser user w <> (Rejected e, w').
Proof.
  rewrite getCartByUser_run.
  by destruct (carts w !! User.email user).
Qed.

(** ** Checkout *)

Lemma address_eqb_false (cfg : config.t) (user : User.t) :
  User.address user <> config.default_address cfg ->
  String.eqb (User.address user) (config.default_address cfg) = false.
Proof. intros Hne. by apply String.eqb_neq. Qed.

(** C2: with a non-empty cart, an address other than the default one and
    a wallet, a finite number, not below the total (cost times quantity
    added up over the line items, in the doubles the code computes
    with), [checkout] resolves with the emptied cart; the stored cart
    has no items and the stored user holds the wallet less the total. *)
Theorem checkout_succeeds cfg user w items :
  carts w !! User.email user = Some items ->
  items <> [] ->
  User.address user <> config.default_address cfg ->
  is_finite (User.walletMoney user) = true ->
  (sumCostQuantity items <=? User.walletMoney user)%float = true ->
  exists w',
    checkout cfg user w = (Resolved (Cart.mk (User.email user) []), w')
    /\ w' = withCart (User.email user) []
              (withUser (debit user (sumCostQuantity items)) w)
    /\ carts w' !! User.email user = Some []
    /\ User.walletMoney <$> users w' !! User.email user
       = Some (User.walletMoney user - sumCostQuantity items)%float.
Proof.
  intros Hcart Hne Haddr Hfin Hbal.
  eexists. split_and!; [| reflexivity | |].
  - rewrite checkout_run; simpl. rewrite Hcart.
    destruct items as [|obj rest]; [done |].
    rewrite address_eqb_false by done.
    rewrite (Binary64.sub_not_negative _ _ Hbal).
    apply Binary64.leb_not_nan in Hbal as [Hnum _].
    by rewrite (Binary64.sub_is_number _ _ Hfin Hnum).
  - simpl. by rewrite lookup_insert_eq.
  - simpl. by rewrite lookup_insert_eq.
Qed.

(** C4: with a non-empty cart and an address set, a wallet for which
    [walletMoney - total < 0] makes [checkout] fail with the 400 error
    Insufficient balance and leaves the stores as they were; a wallet, a
    finite number, equal to the total is enough for it to resolve. *)
Theorem checkout_balance_boundary cfg user w items :
  carts w !! User.email user = Some items ->
  items <> [] ->
  User.address user <> config.default_address cfg ->
  ((User.walletMoney user - sumCostQuantity items <? 0)%float = true ->
   checkout cfg user w = (Rejected Err.insufficientBalance, w)
   /\ errorKind Err.insufficientBalance = InvalidInput)
  /\ (is_finite (User.walletMoney user) = true ->
      (User.walletMoney user =? sumCostQuantity items)%float = true ->
      checkout cfg user w
      = (Resolved (Cart.mk (User.email user) []),
         withCart (User.email user) []
           (withUser (debit user (sumCostQuantity items)) w))).
Proof.
  intros Hcart Hne Haddr.
  rewrite checkout_run; simpl. rewrite Hcart.
  destruct items as [|obj rest]; [done |].
  rewrite address_eqb_false by done.
  split.
  - intros Hbal. by rewrite Hbal.
  - intros Hfin Hbal.
    rewrite (Binary64.sub_not_negative _ _ (Binary64.eqb_leb _ _ Hbal)).
    by rewrite (Binary64.sub_is_number _ _ Hfin (Binary64.eqb_not_nan _ _ Hbal)).
Qed.

(** C5: [checkout] tells its precondition failures apart and tests them
    in a fixed order: no cart gives 404 Cart not found whatever the
    address; a cart without items gives 400 No products in cart whatever
    the address; a cart with items and the default address gives 400 No
    valid address whatever the balance.  The stores are untouched. *)
Theorem checkout_precondition_order cfg user w :
  (carts w !! User.email user = None ->
   checkout cfg user w = (Rejected Err.cartNotFound, w)
   /\ errorKind Err.cartNotFound = NotFound)
  /\ (carts w !! User.email user = Some [] ->
      checkout cfg user w = (Rejected Err.noProducts, w)
      /\ errorKind Err.noProducts = InvalidInput)
  /\ (forall items,
        carts w !! User.email user = Some items ->
        items <> [] ->
        User.address user = config.default_address cfg ->
        checkout cfg user w = (Rejected Err.noValidAddress, w)
        /\ errorKind Err.noValidAddress = InvalidInput).
Proof.
  rewrite checkout_run; simpl.
  split_and!.
  - by intros ->.
  - by intros ->.
  - intros [|obj rest] -> Hne Haddr; [done |].
    apply String.eqb_eq in Haddr. by rewrite Haddr.
Qed.

(** ** Adding a product *)


Lemma countFor_absent productId (items : list LineItem.t) :
  productId ∉ productIds items -> countFor productId items = 0%nat.
Proof.
  unfold countFor, productIds.
  induction items as [|obj rest IH]; simpl; [done |].
  intros [Hobj Hrest]%not_elem_of_cons.
  unfold matchesId at 1.
  destruct (String.eqb_spec
              (ObjectId_toString (Product._id (LineItem.product obj)))
              productId);
    [congruence | by apply IH].
Qed.


Lemma countFor_app productId (items more : list LineItem.t) :
  countFor productId (items ++ more)
  = (countFor productId items + countFor productId more)%nat.
Proof. unfold countFor. by rewrite List.filter_app, length_app. Qed.

(** C3, as the service behaves.  A product id that is an id but the id
    of no product makes [addProductToCart] fail with a 400 error and no
    line item added, when the cart is there or can be created: a user
    who has a cart keeps all stores as they were; for a user without
    one, the empty cart created at the start of the call stays stored.
    When creating that cart fails the call fails with the 500 error and
    stores nothing.  A product id that is not an id makes the product
    lookup reject with a cast error before any cart is read or
    created. *)
Theorem addProductToCart_unknown_product user productId quantity w :
  (ObjectId_cast productId = None ->
   addProductToCart user productId quantity w
   = (Rejected (Err.notAnId productId), w))
  /\ (forall id,
        ObjectId_cast productId = Some id ->
        find (ProductModel.hasId id) (products w) = None ->
        (forall items,
           carts w !! User.email user = Some items ->
           exists e : ApiError,
             addProductToCart user productId quantity w = (Rejected e, w)
             /\ errorKind e = InvalidInput)
        /\ (carts w !! User.email user = None ->
            createFails (User.email user) = false ->
            addProductToCart user productId quantity w
            = (Rejected Err.unknownProduct, withCart (User.email user) [] w)
            /\ errorKind Err.unknownProduct = InvalidInput)
        /\ (carts w !! User.email user = None ->
            createFails (User.email user) = true ->
            addProductToCart user productId quantity w
            = (Rejected Err.cartNotCreated, w)
            /\ errorKind Err.cartNotCreated = InternalFailure)).
Proof.
  rewrite addProductToCart_run; simpl.
  split.
  - by intros ->.
  - intros id -> Hfind. rewrite Hfind.
    split; [| split].
    + intros items ->.
      destruct (existsb (matchesId productId) items); by eexists.
    + by intros -> ->.
    + by intros -> ->.
Qed.


(** Adding a product under the hex string of its id and then adding it
    again: the first call stores exactly one line item for it, the
    second is refused and changes nothing. *)
Lemma addProductToCart_twice user productId quantity quantity' w cart w1 id :
  ObjectId_toString id = productId ->
  addProductToCart user productId quantity w = (Resolved cart, w1) ->
  addProductToCart user productId quantity' w1 = (Rejected Err.alreadyInCart, w1)
  /\ carts w1 !! User.email user = Some (Cart.cartItems cart)
  /\ countFor productId (Cart.cartItems cart) = 1%nat.
Proof.
  intros Hid.
  assert (ObjectId_cast productId = Some id) as Hcast.
  { rewrite <- Hid. apply ObjectId_cast_toString. }
  rewrite addProductToCart_run; simpl. rewrite Hcast.
  assert (forall product,
            ProductModel.hasId id product = true ->
            matchesId productId (LineItem.mk product quantity) = true)
    as Hnew.
  { intros product Hp.
    unfold ProductModel.hasId in Hp. apply bool_decide_eq_true in Hp.
    unfold matchesId; simpl. rewrite Hp. by apply String.eqb_eq. }
  assert (forall product items,
            ProductModel.hasId id product = true ->
            productId ∉ productIds items ->
            countFor productId (items ++ [LineItem.mk product quantity]) = 1%nat)
    as Hcount.
  { intros product items Hp Hnot.
    rewrite countFor_app, (countFor_absent _ _ Hnot).
    unfold countFor; simpl. by rewrite (Hnew product Hp). }
  assert (forall items,
            productId ∈ productIds items ->
            addProductToCart user productId quantity'
              (withCart (User.email user) items w)
            = (Rejected Err.alreadyInCart, withCart (User.email user) items w))
    as Hagain.
  { intros items Hin%existsb_matchesId.
    rewrite addProductToCart_run; simpl.
    by rewrite Hcast, lookup_insert_eq, Hin. }
  destruct (carts w !! User.email user) as [items|] eqn:Hcart.
  - destruct (existsb (matchesId productId) items) eqn:Hex; [done |].
    apply existsb_matchesId_false in Hex.
    destruct (find _ (products w)) as [product|] eqn:Hp; [| done].
    apply find_some in Hp as [_ Hp].
    intros [= <- <-]; simpl.
    split_and!; [| by rewrite lookup_insert_eq | by apply Hcount].
    apply Hagain. apply existsb_matchesId.
    rewrite existsb_app; simpl. by rewrite (Hnew product Hp), orb_true_r.
  - destruct (createFails (User.email user)); [done |].
    destruct (find _ (products w)) as [product|] eqn:Hp; [| done].
    apply find_some in Hp as [_ Hp].
    intros [= <- <-]; simpl.
    split_and!; [| by rewrite lookup_insert_eq |].
    + apply Hagain. apply existsb_matchesId. simpl.
      by rewrite (Hnew product Hp).
    + apply (Hcount product []); [done | apply not_elem_of_nil].
Qed.


(** ** Updating a quantity *)

Lemma productIds_setQuantity productId quantity (items : list LineItem.t) :
  productIds (map (setQuantity productId quantity) items) = productIds items.
Proof.
  unfold productIds. rewrite map_map. apply map_ext.
  intros obj. unfold setQuantity. by destruct (matchesId productId obj).
Qed.


(** ** Deleting a product *)

Lemma existsb_false_forall (test : LineItem.t -> bool)
  (items : list LineItem.t) :
  existsb test items = false <-> forall obj, obj ∈ items -> test obj = false.
Proof.
  split.
  - intros Hex obj Hin. apply not_true_is_false. intros Hobj.
    assert (existsb test items = true) as Habs; [| congruence].
    apply existsb_exists. exists obj. split; [by apply list_elem_of_In | done].
  - intros Hall. apply not_true_is_false.
    intros (obj & Hin%list_elem_of_In & Hobj)%existsb_exists.
    rewrite (Hall obj Hin) in Hobj. discriminate.
Qed.

(** C9: [deleteProductFromCart] fails with a 400 error and stores nothing
    when the user has no cart or no line item of the cart has the
    product id as its id (the test is [_id.equals(productId)]);
    otherwise it resolves, and the stored cart is the old one with a
    single line item for the product taken out, the items before and
    after it in their old order. *)
Theorem deleteProductFromCart_removes_one user productId w :
  (carts w !! User.email user = None ->
   deleteProductFromCart user productId w = (Rejected Err.noCartToDeleteFrom, w)
   /\ errorKind Err.noCartToDeleteFrom = InvalidInput)
  /\ (forall items,
        carts w !! User.email user = Some items ->
        (forall obj, obj ∈ items -> equalsId productId obj = false) ->
        deleteProductFromCart user productId w = (Rejected Err.notInCart, w)
        /\ errorKind Err.notInCart = InvalidInput)
  /\ (forall items,
        carts w !! User.email user = Some items ->
        (exists obj, obj ∈ items /\ equalsId productId obj = true) ->
        exists before obj after,
          items = before ++ obj :: after
          /\ equalsId productId obj = true
          /\ (forall obj', obj' ∈ after -> equalsId productId obj' = false)
          /\ deleteProductFromCart user productId w
             = (Resolved tt, withCart (User.email user) (before ++ after) w)).
Proof.
  pose proof (deleteProductFromCart_run user productId w) as Hrun.
  simpl in Hrun.
  split_and!.
  - intros Hcart. by rewrite Hcart in Hrun.
  - intros items Hcart Hnot%existsb_false_forall.
    by rewrite Hcart, Hnot in Hrun.
  - intros items Hcart (obj0 & Hin & Hobj0).
    assert (existsb (equalsId productId) items = true) as Hex.
    { apply existsb_exists. exists obj0.
      split; [by apply list_elem_of_In | done]. }
    rewrite Hcart, Hex in Hrun.
    destruct Hrun as (before & obj & after & Hsplit & Hobj & Hafter & Hdel).
    exists before, obj, after.
    split_and!; [done | done | | done].
    by apply existsb_false_forall.
Qed.

(** ** Line items do not stay unique *)

(** C10: at most one line item per product should be an invariant, and
    [addProductToCart] breaks it.  The product is looked up by the id the
    string casts to, the cart is searched for the string itself: for a
    product already in a cart, asked for under a second spelling of its
    id, the call resolves and the stored cart holds the product twice. *)
Theorem addProductToCart_second_spelling_duplicates user productId quantity w
  items product :
  carts w !! User.email user = Some items ->
  uniqueItems items ->
  ObjectId_cast productId = Some (Product._id product) ->
  find (ProductModel.hasId (Product._id product)) (products w) = Some product ->
  ObjectId_toString (Product._id product) ∈ productIds items ->
  productId ∉ productIds items ->
  addProductToCart user productId quantity w
  = (Resolved
       (Cart.mk (User.email user) (items ++ [LineItem.mk product quantity])),
     withCart (User.email user) (items ++ [LineItem.mk product quantity]) w)
  /\ ~ uniqueItems (items ++ [LineItem.mk product quantity]).
Proof.
  intros Hcart Huniq Hcast Hprod Hin Hnot.
  split.
  - apply existsb_matchesId_false in Hnot.
    rewrite addProductToCart_run; simpl.
    by rewrite Hcast, Hcart, Hnot, Hprod.
  - unfold uniqueItems, productIds. rewrite map_app; simpl.
    intros (_ & Hdisj & _)%NoDup_app.
    apply (Hdisj _ Hin). apply list_elem_of_here.
Qed.

(** ** Further properties of the cart service *)

(** X1: the rejections of [updateProductInCart], in the order the code
    tests them: no cart (whatever the product id); a product id that is
    not an id, which makes the product lookup reject with a cast error;
    an id of no catalog product (even when the cart holds it); a product
    of the catalog that the cart does not hold under this spelling.
    None of them stores anything. *)
Theorem updateProductInCart_rejections user productId quantity w :
  (carts w !! User.email user = None ->
   updateProductInCart user productId quantity w
   = (Rejected Err.noCartUsePost, w))
  /\ (forall items,
        carts w !! User.email user = Some items ->
        ObjectId_cast productId = None ->
        updateProductInCart user productId quantity w
        = (Rejected (Err.notAnId productId), w))
  /\ (forall items id,
        carts w !! User.email user = Some items ->
        ObjectId_cast productId = Some id ->
        find (ProductModel.hasId id) (products w) = None ->
        updateProductInCart user productId quantity w
        = (Rejected Err.unknownProduct, w))
  /\ (forall items id product,
        carts w !! User.email user = Some items ->
        ObjectId_cast productId = Some id ->
        find (ProductModel.hasId id) (products w) = Some product ->
        productId ∉ productIds items ->
        updateProductInCart user productId quantity w
        = (Rejected Err.notInCart, w)).
Proof.
  rewrite updateProductInCart_run; simpl.
  split; [| split; [| split]].
  - by intros ->.
  - by intros items -> ->.
  - by intros items id -> -> ->.
  - intros items id product -> -> -> Hnot%existsb_matchesId_false.
    by rewrite Hnot.
Qed.

(** X2: when the product is in the catalog and the cart (taken as empty
    if the user has none, and then created without failure) holds no
    line item for it, [addProductToCart] resolves with the old items
    followed by one new line item made of the catalog document and the
    quantity given, and stores exactly that cart. *)
Theorem addProductToCart_appends user productId quantity w product :
  find (ProductModel.sameId productId) (products w) = Some product ->
  productId ∉ productIds (default [] (carts w !! User.email user)) ->
  (carts w !! User.email user = None ->
   createFails (User.email user) = false) ->
  let items := default [] (carts w !! User.email user) in
  let items' := items ++ [LineItem.mk product quantity] in
  addProductToCart user productId quantity w
  = (Resolved (Cart.mk (User.email user) items'),
     withCart (User.email user) items' w)
  /\ ObjectId_toString (Product._id product) = productId.
Proof.
  intros Hprod Hnot Hcreate. simpl.
  split; [| by eapply findById_id].
  apply find_sameId_hasId in Hprod as [Hcast Hprod].
  rewrite addProductToCart_run; simpl. rewrite Hcast, Hprod.
  destruct (carts w !! User.email user) as [items|]; simpl in *.
  - apply existsb_matchesId_false in Hnot. by rewrite Hnot.
  - by rewrite Hcreate.
Qed.

(** X3: when the product id is an id and the cart, if it has to be
    created, is created without failure, the user has a cart after
    [addProductToCart], whatever the call answers: a following
    [getCartByUser] resolves with a cart and not with the 404 error
    value. *)
Theorem addProductToCart_leaves_a_cart user productId quantity w id :
  ObjectId_cast productId = Some id ->
  (carts w !! User.email user = None ->
   createFails (User.email user) = false) ->
  exists items,
    carts (snd (addProductToCart user productId quantity w)) !! User.email user
    = Some items
    /\ getCartByUser user (snd (addProductToCart user productId quantity w))
       = (Resolved (inl (Cart.mk (User.email user) items)),
          snd (addProductToCart user productId quantity w)).
Proof.
  intros Hcast Hcreate.
  assert (exists items,
            carts (snd (addProductToCart user productId quantity w))
              !! User.email user = Some items) as [items Hitems].
  { rewrite addProductToCart_run; simpl. rewrite Hcast.
    destruct (carts w !! User.email user) as [items|] eqn:Hcart.
    - destruct (existsb (matchesId productId) items); [by eexists |].
      destruct (find _ (products w)); simpl; [| by eexists].
      rewrite lookup_insert_eq. by eexists.
    - rewrite Hcreate by done.
      destruct (find _ (products w)); simpl; rewrite lookup_insert_eq;
        by eexists. }
  exists items. split; [done |].
  rewrite getCartByUser_run. by rewrite Hitems.
Qed.

(** X4: the cart that [addProductToCart], [updateProductInCart] or
    [checkout] resolves with is the cart stored for the user: a
    [getCartByUser] right after resolves with that same cart. *)
Theorem resolved_cart_is_stored cfg user productId quantity w cart w' :
  addProductToCart user productId quantity w = (Resolved cart, w')
  \/ updateProductInCart user productId quantity w = (Resolved cart, w')
  \/ checkout cfg user w = (Resolved cart, w') ->
  getCartByUser user w' = (Resolved (inl cart), w').
Proof.
  rewrite getCartByUser_run.
  intros [Hrun | [Hrun | Hrun]].
  - rewrite addProductToCart_run in Hrun; simpl in Hrun.
    destruct (ObjectId_cast productId); [| done].
    destruct (carts w !! User.email user) as [items|].
    + destruct (existsb (matchesId productId) items); [done |].
      destruct (find _ (products w)); [| done].
      injection Hrun as <- <-. simpl. by rewrite lookup_insert_eq.
    + destruct (createFails (User.email user)); [done |].
      destruct (find _ (products w)); [| done].
      injection Hrun as <- <-. simpl. by rewrite lookup_insert_eq.
  - rewrite updateProductInCart_run in Hrun; simpl in Hrun.
    destruct (carts w !! User.email user) as [items|]; [| done].
    destruct (ObjectId_cast productId); [| done].
    destruct (find _ (products w)); [| done].
    destruct (existsb (matchesId productId) items); [| done].
    injection Hrun as <- <-. simpl. by rewrite lookup_insert_eq.
  - rewrite checkout_run in Hrun; simpl in Hrun.
    destruct (carts w !! User.email user) as [[|obj rest]|]; [done | | done].
    destruct (String.eqb _ _); [done |].
    destruct (_ <? 0)%float; [done |].
    destruct (is_nan _); [done |].
    injection Hrun as <- <-. simpl. by rewrite lookup_insert_eq.
Qed.

(** The stores after each operation. *)
Lemma addProductToCart_world user productId quantity w :
  snd (addProductToCart user productId quantity w) = w
  \/ exists items,
       snd (addProductToCart user productId quantity w)
       = withCart (User.email user) items w.
Proof.
  rewrite addProductToCart_run; simpl.
  destruct (ObjectId_cast productId); [| by left].
  destruct (carts w !! User.email user) as [items|].
  - destruct (existsb (matchesId productId) items); [by left |].
    destruct (find _ (products w)); [right; by eexists | by left].
  - destruct (createFails (User.email user)); [by left |].
    destruct (find _ (products w)); right; by eexists.
Qed.

Lemma updateProductInCart_world user productId quantity w :
  snd (updateProductInCart user productId quantity w) = w
  \/ exists items,
       snd (updateProductInCart user productId quantity w)
       = withCart (User.email user) items w.
Proof.
  rewrite updateProductInCart_run; simpl.
  destruct (carts w !! User.email user) as [items|]; [| by left].
  destruct (ObjectId_cast productId); [| by left].
  destruct (find _ (products w)); [| by left].
  destruct (existsb (matchesId productId) items); [right; by eexists | by left].
Qed.

Lemma deleteProductFromCart_world user productId w :
  snd (deleteProductFromCart user productId w) = w
  \/ exists items,
       snd (deleteProductFromCart user productId w)
       = withCart (User.email user) items w.
Proof.
  pose proof (deleteProductFromCart_run user productId w) as Hrun.
  simpl in Hrun.
  destruct (carts w !! User.email user) as [items|];
    [| left; by rewrite Hrun].
  destruct (existsb (equalsId productId) items); [| left; by rewrite Hrun].
  destruct Hrun as (before & obj & after & _ & _ & _ & ->).
  right. by eexists.
Qed.

Lemma checkout_world cfg user w :
  snd (checkout cfg user w) = w
  \/ exists total,
       snd (checkout cfg user w)
       = withCart (User.email user) [] (withUser (debit user total) w).
Proof.
  rewrite checkout_run; simpl.
  destruct (carts w !! User.email user) as [[|obj rest]|]; [by left | | by left].
  destruct (String.eqb _ _); [by left |].
  destruct (_ <? 0)%float; [by left |].
  destruct (is_nan _); [by left | right; by eexists].
Qed.

Lemma sameElsewhere_refl email w : sameElsewhere email w w.
Proof. by split. Qed.

Lemma sameElsewhere_withCart email items w :
  sameElsewhere email w (withCart email items w).
Proof.
  split; [done |]. intros e Hne; simpl.
  by rewrite lookup_insert_ne.
Qed.

(** X5: no operation of the cart service writes the product catalog or
    anything stored for another email; adding, updating and deleting
    write no user document at all. *)
Theorem writes_stay_with_the_user cfg user productId quantity w :
  (sameElsewhere (User.email user) w
     (snd (addProductToCart user productId quantity w))
   /\ users (snd (addProductToCart user productId quantity w)) = users w)
  /\ (sameElsewhere (User.email user) w
        (snd (updateProductInCart user productId quantity w))
      /\ users (snd (updateProductInCart user productId quantity w)) = users w)
  /\ (sameElsewhere (User.email user) w
        (snd (deleteProductFromCart user productId w))
      /\ users (snd (deleteProductFromCart user productId w)) = users w)
  /\ sameElsewhere (User.email user) w (snd (checkout cfg user w)).
Proof.
  split; [| split; [| split]].
  - destruct (addProductToCart_world user productId quantity w)
      as [-> | [items ->]];
      [split; [apply sameElsewhere_refl | done]
      | split; [apply sameElsewhere_withCart | done]].
  - destruct (updateProductInCart_world user productId quantity w)
      as [-> | [items ->]];
      [split; [apply sameElsewhere_refl | done]
      | split; [apply sameElsewhere_withCart | done]].
  - destruct (deleteProductFromCart_world user productId w)
      as [-> | [items ->]];
      [split; [apply sameElsewhere_refl | done]
      | split; [apply sameElsewhere_withCart | done]].
  - destruct (checkout_world cfg user w) as [-> | [total ->]];
      [apply sameElsewhere_refl |].
    split; [done |]. intros e Hne; simpl.
    by rewrite !lookup_insert_ne.
Qed.


(** X7: [checkout] resolves only when its preconditions hold: the user
    has a cart with items, an address other than the default, and the
    test [walletMoney - total < 0] fails.  The cart it resolves with is
    empty and the wallet it stores is the old one less the total, which
    is a number and not below zero. *)
Theorem checkout_resolves_only_if cfg user w cart w' :
  checkout cfg user w = (Resolved cart, w') ->
  exists items,
    carts w !! User.email user = Some items
    /\ items <> []
    /\ User.address user <> config.default_address cfg
    /\ (User.walletMoney user - sumCostQuantity items <? 0)%float = false
    /\ cart = Cart.mk (User.email user) []
    /\ users w' !! User.email user
       = Some (debit user (sumCostQuantity items))
    /\ (User.walletMoney (debit user (sumCostQuantity items)) <? 0)%float
       = false
    /\ is_nan (User.walletMoney (debit user (sumCostQuantity items))) = false.
Proof.
  rewrite checkout_run; simpl.
  destruct (carts w !! User.email user) as [[|obj rest]|]; [done | | done].
  destruct (String.eqb_spec (User.address user) (config.default_address cfg))
    as [|Haddr]; [done |].
  destruct (_ <? 0)%float eqn:Hlt; [done |].
  destruct (is_nan _) eqn:Hnum; [done |].
  intros [= <- <-].
  exists (obj :: rest).
  split_and!; try done.
  simpl. by rewrite lookup_insert_eq.
Qed.

(** X8: [checkout] consumes the cart: right after a [checkout] that
    resolved, a second one for the same email rejects with 400 No
    products in cart and stores nothing, whatever the wallet and address
    of the user document it is called with. *)
Theorem checkout_twice_rejects cfg user w cart w1 user' :
  checkout cfg user w = (Resolved cart, w1) ->
  User.email user' = User.email user ->
  checkout cfg user' w1 = (Rejected Err.noProducts, w1).
Proof.
  rewrite checkout_run; simpl.
  destruct (carts w !! User.email user) as [[|obj rest]|]; [done | | done].
  destruct (String.eqb _ _); [done |].
  destruct (_ <? 0)%float; [done |].
  destruct (is_nan _); [done |].
  intros [= _ <-] Hemail.
  rewrite checkout_run; simpl.
  by rewrite Hemail, lookup_insert_eq.
Qed.


(** ** How the operations compose *)

Lemma snoc_split_at_match (test : LineItem.t -> bool)
  (items before after : list LineItem.t) item obj :
  items ++ [item] = before ++ obj :: after ->
  existsb test items = false ->
  test obj = true ->
  before = items /\ after = [].
Proof.
  revert before.
  induction items as [|x items IH]; intros [|b before] Hsplit Hnone Hobj;
    simpl in *.
  - injection Hsplit as _ <-. done.
  - injection Hsplit as _ Hrest. by destruct before.
  - injection Hsplit as -> _. by rewrite Hobj in Hnone.
  - injection Hsplit as -> Hrest.
    apply orb_false_iff in Hnone as [_ Hnone].
    destruct (IH before Hrest Hnone Hobj) as [-> ->]. done.
Qed.

Lemma existsb_equalsId_matchesId productId id (items : list LineItem.t) :
  ObjectId_toString id = productId ->
  existsb (equalsId productId) items = existsb (matchesId productId) items.
Proof.
  intros Hid.
  induction items as [|obj rest IH]; simpl; [done |].
  by rewrite (equalsId_matchesId productId id obj Hid), IH.
Qed.

Lemma matchesId_setQuantity productId productId' quantity obj :
  matchesId productId (setQuantity productId' quantity obj)
  = matchesId productId obj.
Proof. unfold setQuantity. by destruct (matchesId productId' obj). Qed.

Lemma existsb_setQuantity productId productId' quantity
  (items : list LineItem.t) :
  existsb (matchesId productId) (map (setQuantity productId' quantity) items)
  = existsb (matchesId productId) items.
Proof.
  induction items as [|obj rest IH]; simpl; [done |].
  by rewrite matchesId_setQuantity, IH.
Qed.

Lemma setQuantity_setQuantity productId quantity quantity' obj :
  setQuantity productId quantity' (setQuantity productId quantity obj)
  = setQuantity productId quantity' obj.
Proof.
  unfold setQuantity at 2 3.
  destruct (matchesId productId obj) eqn:Hm.
  - unfold setQuantity, matchesId in *. simpl. by rewrite Hm.
  - unfold setQuantity. by rewrite Hm.
Qed.

(** X10: adding a product the cart does not hold and deleting it again
    gives back the cart as it was: the stored items are the old ones, in
    their order, and all stores are the old ones when the user had a
    cart.  A user who had none (and whose cart is created without
    failure) keeps an empty cart. *)
Theorem add_then_delete_restores user productId quantity w product :
  find (ProductModel.sameId productId) (products w) = Some product ->
  productId ∉ productIds (default [] (carts w !! User.email user)) ->
  (carts w !! User.email user = None ->
   createFails (User.email user) = false) ->
  exists cart w1,
    addProductToCart user productId quantity w = (Resolved cart, w1)
    /\ deleteProductFromCart user productId w1
       = (Resolved tt,
          withCart (User.email user)
            (default [] (carts w !! User.email user)) w)
    /\ (is_Some (carts w !! User.email user) ->
        deleteProductFromCart user productId w1 = (Resolved tt, w)).
Proof.
  intros Hprod Hnot Hcreate.
  pose proof (findById_id _ _ _ Hprod) as Hid.
  apply find_sameId_hasId in Hprod as [Hcast Hprod].
  set (items := default [] (carts w !! User.email user)) in *.
  set (item := LineItem.mk product quantity).
  assert (addProductToCart user productId quantity w
          = (Resolved (Cart.mk (User.email user) (items ++ [item])),
             withCart (User.email user) (items ++ [item]) w)) as Hadd.
  { rewrite addProductToCart_run; simpl. rewrite Hcast, Hprod. subst items.
    destruct (carts w !! User.email user) as [items|]; simpl in *.
    - apply existsb_matchesId_false in Hnot. by rewrite Hnot.
    - by rewrite Hcreate. }
  assert (deleteProductFromCart user productId
            (withCart (User.email user) (items ++ [item]) w)
          = (Resolved tt, withCart (User.email user) items w)) as Hdel.
  { pose proof (deleteProductFromCart_run user productId
                  (withCart (User.email user) (items ++ [item]) w)) as Hrun.
    simpl in Hrun. rewrite lookup_insert_eq in Hrun.
    assert (equalsId productId item = true) as Hitem.
    { apply matchesId_equalsId. unfold matchesId; simpl.
      by apply String.eqb_eq. }
    rewrite existsb_app in Hrun; simpl in Hrun.
    rewrite Hitem, orb_true_r in Hrun.
    destruct Hrun as (before & obj & after & Hsplit & Hobj & _ & ->).
    apply existsb_matchesId_false in Hnot.
    rewrite <- (existsb_equalsId_matchesId _ _ _ Hid) in Hnot.
    destruct (snoc_split_at_match _ _ _ _ _ _ Hsplit Hnot Hobj) as [-> ->].
    by rewrite app_nil_r, withCart_withCart. }
  eexists _, _. split; [exact Hadd |]. split; [exact Hdel |].
  intros [old Hold]. rewrite Hdel. f_equal.
  apply withCart_same. subst items. by rewrite Hold.
Qed.


(** X12: the last quantity written wins: updating a line item and then
    updating it again answers and stores exactly what the second update
    alone would have. *)
Theorem update_last_write_wins user productId quantity quantity' w items
  product :
  carts w !! User.email user = Some items ->
  productId ∈ productIds items ->
  find (ProductModel.sameId productId) (products w) = Some product ->
  exists cart1 w1,
    updateProductInCart user productId quantity w = (Resolved cart1, w1)
    /\ updateProductInCart user productId quantity' w1
       = updateProductInCart user productId quantity' w.
Proof.
  intros Hcart Hin%existsb_matchesId Hprod.
  apply find_sameId_hasId in Hprod as [Hcast Hprod].
  eexists _, _. split.
  - rewrite updateProductInCart_run; simpl.
    rewrite Hcart, Hcast, Hprod, Hin. reflexivity.
  - rewrite !updateProductInCart_run; simpl.
    rewrite lookup_insert_eq, Hcart, Hcast, Hprod, existsb_setQuantity, Hin.
    rewrite map_map.
    rewrite (map_ext _ _ (setQuantity_setQuantity productId quantity quantity')).
    by rewrite withCart_withCart.
Qed.

(** ** Prices and the catalog *)

(** X16: [checkout] and [deleteProductFromCart] never read the product
    catalog: with any other catalog in place they answer the same and
    store the same carts and users.  The total charged is the one of the
    costs kept in the line items. *)
Theorem checkout_ignores_catalog cfg user productId w catalog' :
  let w' := mkWorld (carts w) catalog' (users w) in
  (fst (checkout cfg user w') = fst (checkout cfg user w)
   /\ carts (snd (checkout cfg user w')) = carts (snd (checkout cfg user w))
   /\ users (snd (checkout cfg user w')) = users (snd (checkout cfg user w)))
  /\ (fst (deleteProductFromCart user productId w')
      = fst (deleteProductFromCart user productId w)
      /\ carts (snd (deleteProductFromCart user productId w'))
         = carts (snd (deleteProductFromCart user productId w))
      /\ users (snd (deleteProductFromCart user productId w'))
         = users (snd (deleteProductFromCart user productId w))).
Proof.
  simpl. split.
  - rewrite !checkout_run; simpl.
    destruct (carts w !! User.email user) as [[|obj rest]|]; [done | | done].
    destruct (String.eqb _ _); [done |].
    destruct (_ <? 0)%float; [done |].
    by destruct (is_nan _).
  - unfold deleteProductFromCart, bind, CartModel.findOne, CartModel.save,
      ret, throw; simpl.
    destruct (carts w !! User.email user) as [items|]; simpl; [| done].
    destruct (forEach _ items (false, 0%nat)) as [exists_ pos].
    by destruct exists_.
Qed.

(** X17: adding a product under the hex string of its id and adding it
    again: the first call stores exactly one line item for it, the
    second is refused with 400 Product already in cart and stores
    nothing. *)
Theorem add_twice_keeps_one user productId quantity quantity' w cart w1 id :
  ObjectId_toString id = productId ->
  addProductToCart user productId quantity w = (Resolved cart, w1) ->
  addProductToCart user productId quantity' w1 = (Rejected Err.alreadyInCart, w1)
  /\ carts w1 !! User.email user = Some (Cart.cartItems cart)
  /\ countFor productId (Cart.cartItems cart) = 1%nat.
Proof. apply addProductToCart_twice. Qed.

(** ** Where line items stay unique *)

Lemma uniqueItems_nil : uniqueItems [].
Proof. apply NoDup_nil_2. Qed.

Lemma uniqueItems_push productId (items : list LineItem.t) product quantity :
  uniqueItems items ->
  productId ∉ productIds items ->
  ObjectId_toString (Product._id product) = productId ->
  uniqueItems (items ++ [LineItem.mk product quantity]).
Proof.
  unfold uniqueItems, productIds. intros Huniq Hnot Hid.
  rewrite map_app; simpl. rewrite Hid.
  apply NoDup_app. split_and!; [done | | apply NoDup_singleton].
  intros x Hx ->%list_elem_of_singleton. contradiction.
Qed.

Lemma uniqueItems_remove (before after : list LineItem.t) obj :
  uniqueItems (before ++ obj :: after) -> uniqueItems (before ++ after).
Proof.
  unfold uniqueItems, productIds. rewrite !map_app; simpl.
  intros (Hb & Hdisj & [_ Ha]%NoDup_cons)%NoDup_app.
  apply NoDup_app. split_and!; [done | | done].
  intros x Hx Hin. apply (Hdisj x Hx). by right.
Qed.

Lemma keepsUnique_withCart {A : Type} email items (m : Async A) w out :
  m w = (out, withCart email items w) ->
  uniqueItems items -> keepsUnique email m w.
Proof.
  intros Hrun Huniq items'. rewrite Hrun; simpl.
  rewrite lookup_insert_eq. by intros [= <-].
Qed.

Lemma keepsUnique_same {A : Type} email (m : Async A) w out :
  m w = (out, w) ->
  from_option uniqueItems True (carts w !! email) ->
  keepsUnique email m w.
Proof.
  intros Hrun Huniq items'. rewrite Hrun; simpl.
  intros Hcart. by rewrite Hcart in Huniq.
Qed.

Lemma uniqueItems_stored email w :
  (forall items, carts w !! email = Some items -> uniqueItems items) ->
  from_option uniqueItems True (carts w !! email).
Proof. intros Huniq. destruct (carts w !! email); simpl; auto. Qed.

(** A branch that rejects and leaves the stores alone. *)
Ltac stores_nothing Hrun Hcart :=
  split;
  [ eapply keepsUnique_same; [exact Hrun | by rewrite Hcart]
  | intros ? ?; congruence ].

Ltac resolves_with Hrun :=
  let cart := fresh "cart" in
  let w' := fresh "w'" in
  intros cart w'; rewrite Hrun; by intros [= <- <-].

Lemma addProductToCart_unique user productId quantity w :
  (forall id, ObjectId_cast productId = Some id ->
              ObjectId_toString id = productId) ->
  (forall items, carts w !! User.email user = Some items -> uniqueItems items) ->
  keepsUnique (User.email user) (addProductToCart user productId quantity) w
  /\ resolvesUnique (addProductToCart user productId quantity) w.
Proof.
  intros Hcanon Huniq%uniqueItems_stored.
  pose proof (addProductToCart_run user productId quantity w) as Hrun.
  simpl in Hrun.
  destruct (ObjectId_cast productId) as [id|] eqn:Hcast.
  2: { split; [by eapply keepsUnique_same | intros ? ?; congruence]. }
  specialize (Hcanon id eq_refl).
  assert (forall product,
            find (ProductModel.hasId id) (products w) = Some product ->
            ObjectId_toString (Product._id product) = productId) as Hfound.
  { intros product [_ Hp]%find_some.
    unfold ProductModel.hasId in Hp. apply bool_decide_eq_true in Hp.
    by rewrite Hp. }
  destruct (carts w !! User.email user) as [items|] eqn:Hcart; simpl in Huniq.
  - destruct (existsb (matchesId productId) items) eqn:Hex;
      [stores_nothing Hrun Hcart |].
    apply existsb_matchesId_false in Hex.
    destruct (find _ (products w)) as [product|] eqn:Hp;
      [| stores_nothing Hrun Hcart].
    assert (uniqueItems (items ++ [LineItem.mk product quantity])) as Hnew.
    { eapply uniqueItems_push; eauto. }
    split; [by eapply keepsUnique_withCart | resolves_with Hrun].
  - destruct (createFails (User.email user));
      [stores_nothing Hrun Hcart |].
    destruct (find _ (products w)) as [product|] eqn:Hp.
    + assert (uniqueItems [LineItem.mk product quantity]) as Hnew.
      { apply NoDup_singleton. }
      split; [by eapply keepsUnique_withCart | resolves_with Hrun].
    + split; [eapply keepsUnique_withCart; eauto using uniqueItems_nil |].
      intros ? ?; congruence.
Qed.

Lemma updateProductInCart_unique user productId quantity w :
  (forall items, carts w !! User.email user = Some items -> uniqueItems items) ->
  keepsUnique (User.email user) (updateProductInCart user productId quantity) w
  /\ resolvesUnique (updateProductInCart user productId quantity) w.
Proof.
  intros Huniq%uniqueItems_stored.
  pose proof (updateProductInCart_run user productId quantity w) as Hrun.
  simpl in Hrun.
  destruct (carts w !! User.email user) as [items|] eqn:Hcart; simpl in Huniq;
    [| stores_nothing Hrun Hcart].
  destruct (ObjectId_cast productId); [| stores_nothing Hrun Hcart].
  destruct (find _ (products w)); [| stores_nothing Hrun Hcart].
  destruct (existsb (matchesId productId) items); [| stores_nothing Hrun Hcart].
  assert (uniqueItems (map (setQuantity productId quantity) items)) as Hnew.
  { unfold uniqueItems. by rewrite productIds_setQuantity. }
  split; [by eapply keepsUnique_withCart | resolves_with Hrun].
Qed.

Lemma deleteProductFromCart_unique user productId w :
  (forall items, carts w !! User.email user = Some items -> uniqueItems items) ->
  keepsUnique (User.email user) (deleteProductFromCart user productId) w.
Proof.
  intros Huniq%uniqueItems_stored.
  pose proof (deleteProductFromCart_run user productId w) as Hrun.
  simpl in Hrun.
  destruct (carts w !! User.email user) as [items|] eqn:Hcart; simpl in Huniq;
    [| eapply keepsUnique_same; [exact Hrun | by rewrite Hcart]].
  destruct (existsb (equalsId productId) items);
    [| eapply keepsUnique_same; [exact Hrun | by rewrite Hcart]].
  destruct Hrun as (before & obj & after & -> & _ & _ & Hdel).
  eapply keepsUnique_withCart; [exact Hdel |].
  by eapply uniqueItems_remove.
Qed.

Lemma checkout_unique cfg user w :
  (forall items, carts w !! User.email user = Some items -> uniqueItems items) ->
  keepsUnique (User.email user) (checkout cfg user) w
  /\ resolvesUnique (checkout cfg user) w.
Proof.
  intros Huniq%uniqueItems_stored.
  pose proof (checkout_run cfg user w) as Hrun. simpl in Hrun.
  destruct (carts w !! User.email user) as [[|obj rest]|] eqn:Hcart;
    simpl in Huniq; try stores_nothing Hrun Hcart.
  destruct (String.eqb _ _); [stores_nothing Hrun Hcart |].
  destruct (_ <? 0)%float; [stores_nothing Hrun Hcart |].
  destruct (is_nan _); [stores_nothing Hrun Hcart |].
  split.
  - intros items'. rewrite Hrun; simpl. rewrite lookup_insert_eq.
    intros [= <-]. apply uniqueItems_nil.
  - intros cart w'. rewrite Hrun. intros [= <- <-]. apply uniqueItems_nil.
Qed.

(** X18: where at most one line item per product is kept.  If the
    stored cart of the user has it, then so has the stored cart, and
    every cart resolved with, after [updateProductInCart],
    [deleteProductFromCart] and [checkout], whether they resolve or
    reject; and after [addProductToCart] when the product id is given in
    the spelling of the hex string of the id it casts to. *)
Theorem uniqueItems_kept cfg user productId quantity w :
  (forall items, carts w !! User.email user = Some items -> uniqueItems items) ->
  ((forall id, ObjectId_cast productId = Some id ->
               ObjectId_toString id = productId) ->
   keepsUnique (User.email user) (addProductToCart user productId quantity) w
   /\ resolvesUnique (addProductToCart user productId quantity) w)
  /\ (keepsUnique (User.email user)
        (updateProductInCart user productId quantity) w
      /\ resolvesUnique (updateProductInCart user productId quantity) w)
  /\ keepsUnique (User.email user) (deleteProductFromCart user productId) w
  /\ (keepsUnique (User.email user) (checkout cfg user) w
      /\ resolvesUnique (checkout cfg user) w).
Proof.
  intros Huniq.
  split; [intros Hcanon; by apply addProductToCart_unique |].
  split; [by apply updateProductInCart_unique |].
  split; [by apply deleteProductFromCart_unique | by apply checkout_unique].
Qed.
End Service.

(** ** The user schema *)

Lemma isDigit_not_isLetter c :
  userSchema.isDigit c = true -> userSchema.isLetter c = false.
Proof.
  destruct c as [[] [] [] [] [] [] [] []]; vm_compute;
    intros Hc; first [reflexivity | discriminate Hc].
Qed.

Lemma matchClass_append cls (a b : string) :
  userSchema.matchClass cls (a ++ b)%string
  = userSchema.matchClass cls a || userSchema.matchClass cls b.
Proof.
  induction a as [|c a IH]; simpl; [done |].
  by rewrite IH, orb_assoc.
Qed.

Lemma matchClass_within cls cls' (value : string) :
  (forall c, cls c = true -> cls' c = false) ->
  userSchema.matchClass (fun c => negb (cls c)) value = false ->
  userSchema.matchClass cls' value = false.
Proof.
  intros Hexcl.
  induction value as [|c rest IH]; simpl; [done |].
  intros [Hc Hrest]%orb_false_iff.
  apply negb_false_iff in Hc.
  by rewrite (Hexcl c Hc), IH.
Qed.

(** X13: the password validator wants both classes: a value whose
    characters are all digits, or all letters (the empty value among
    them), makes it throw its message; so a value it lets through has at
    least two characters. *)
Theorem password_needs_digit_and_letter (value : string) :
  (userSchema.matchClass (fun c => negb (userSchema.isDigit c)) value = false
   \/ userSchema.matchClass (fun c => negb (userSchema.isLetter c)) value
      = false ->
   userSchema.password_validate value
   = userSchema.Throws
       "Password must contain at least one letter and one number")
  /\ (userSchema.password_validate value = userSchema.Returns ->
      (2 <= String.length value)%nat).
Proof.
  unfold userSchema.password_validate.
  split.
  - intros [Hdigits | Hletters].
    + rewrite (matchClass_within userSchema.isDigit userSchema.isLetter value
                 isDigit_not_isLetter Hdigits).
      by rewrite orb_true_r.
    + assert (forall c, userSchema.isLetter c = true ->
                        userSchema.isDigit c = false) as Hexcl.
      { intros c Hc. destruct (userSchema.isDigit c) eqn:Hd; [| done].
        apply isDigit_not_isLetter in Hd. congruence. }
      by rewrite (matchClass_within userSchema.isLetter userSchema.isDigit
                    value Hexcl Hletters).
  - destruct value as [|c [|c' rest]]; simpl; [done | | lia].
    rewrite !orb_false_r.
    destruct (userSchema.isDigit c) eqn:Hd; simpl; [| done].
    by rewrite (isDigit_not_isLetter c Hd).
Qed.

(** X14: the validator only asks for one digit and one letter somewhere:
    a value it lets through is still let through with any text put
    before and after it. *)
Theorem password_validate_extends (before value after : string) :
  userSchema.password_validate value = userSchema.Returns ->
  userSchema.password_validate (before ++ value ++ after)%string
  = userSchema.Returns.
Proof.
  unfold userSchema.password_validate.
  rewrite !matchClass_append.
  destruct (userSchema.matchClass userSchema.isDigit value);
    destruct (userSchema.matchClass userSchema.isLetter value);
    simpl; try done.
  intros _. by rewrite !orb_true_r.
Qed.

(** ** The theorems at sample inputs *)

#[local] Existing Instance HexIds.mongo.

Lemma getCartByUser_resolves_with_error_value_witness :
  (getCartByUser Sample.alice Sample.fresh
   = (Resolved (inr (ApiErr Err.noCart)), Sample.fresh)
   /\ errorKind Err.noCart = NotFound)
  /\ getCartByUser Sample.alice Sample.shopping
     = (Resolved (inl (Cart.mk "alice@qkart.io" Sample.threeShirts)),
        Sample.shopping).
Proof.
  split.
  - apply (getCartByUser_resolves_with_error_value Sample.alice Sample.fresh).
    reflexivity.
  - apply (getCartByUser_resolves_with_error_value Sample.alice Sample.shopping).
    reflexivity.
Defined.

Lemma checkout_succeeds_witness :
  exists w',
    checkout Sample.cfg Sample.alice Sample.shopping
    = (Resolved (Cart.mk "alice@qkart.io" []), w')
    /\ w' = withCart "alice@qkart.io" []
              (withUser (debit Sample.alice 300) Sample.shopping)
    /\ carts w' !! "alice@qkart.io" = Some []
    /\ User.walletMoney <$> users w' !! "alice@qkart.io" = Some 200%float.
Proof.
  apply (checkout_succeeds Sample.cfg Sample.alice Sample.shopping
           Sample.threeShirts).
  - reflexivity.
  - discriminate.
  - discriminate.
  - reflexivity.
  - reflexivity.
Defined.

Lemma addProductToCart_unknown_product_witness :
  addProductToCart Sample.alice Sample.malformed 1 Sample.fresh
  = (Rejected (Err.notAnId Sample.malformed), Sample.fresh)
  /\ (exists e : ApiError,
        addProductToCart Sample.alice Sample.ghostHex 1 Sample.shopping
        = (Rejected e, Sample.shopping)
        /\ errorKind e = InvalidInput)
  /\ (addProductToCart Sample.alice Sample.ghostHex 1 Sample.fresh
      = (Rejected Err.unknownProduct,
         withCart "alice@qkart.io" [] Sample.fresh)
      /\ errorKind Err.unknownProduct = InvalidInput)
  /\ (addProductToCart Sample.zoe Sample.ghostHex 1 Sample.fresh
      = (Rejected Err.cartNotCreated, Sample.fresh)
      /\ errorKind Err.cartNotCreated = InternalFailure).
Proof.
  split; [| split; [| split]].
  - apply (addProductToCart_unknown_product Sample.alice Sample.malformed 1
             Sample.fresh).
    reflexivity.
  - apply (proj2 (addProductToCart_unknown_product Sample.alice Sample.ghostHex
                    1 Sample.shopping) Sample.ghostId eq_refl eq_refl)
      with (items := Sample.threeShirts).
    reflexivity.
  - apply (proj2 (addProductToCart_unknown_product Sample.alice Sample.ghostHex
                    1 Sample.fresh) Sample.ghostId eq_refl eq_refl);
      reflexivity.
  - apply (proj2 (addProductToCart_unknown_product Sample.zoe Sample.ghostHex
                    1 Sample.fresh) Sample.ghostId eq_refl eq_refl);
      reflexivity.
Defined.

(** C3 as stated does not hold: the product id is the id of no product
    and the call fails, yet a user who had no cart has an empty one
    afterwards. *)
Lemma failed_add_leaves_new_empty_cart :
  fst (ProductModel.findById Sample.ghostHex Sample.fresh) = Resolved None
  /\ carts Sample.fresh !! "alice@qkart.io" = None
  /\ fst (addProductToCart Sample.alice Sample.ghostHex 1 Sample.fresh)
     = Rejected Err.unknownProduct
  /\ carts (snd (addProductToCart Sample.alice Sample.ghostHex 1 Sample.fresh))
       !! "alice@qkart.io" = Some []
  /\ snd (addProductToCart Sample.alice Sample.ghostHex 1 Sample.fresh)
     <> Sample.fresh.
Proof.
  split_and!; [reflexivity | reflexivity | reflexivity | reflexivity |].
  intros Heq.
  assert (carts (snd (addProductToCart Sample.alice Sample.ghostHex 1
                        Sample.fresh)) !! "alice@qkart.io" = Some [])
    as Hafter by reflexivity.
  assert (carts Sample.fresh !! "alice@qkart.io" = None) as Hbefore
    by reflexivity.
  rewrite Heq in Hafter. congruence.
Qed.

Lemma checkout_balance_boundary_witness :
  (checkout Sample.cfg Sample.carol Sample.shopping
   = (Rejected Err.insufficientBalance, Sample.shopping)
   /\ errorKind Err.insufficientBalance = InvalidInput)
  /\ checkout Sample.cfg Sample.dave Sample.shopping
     = (Resolved (Cart.mk "dave@qkart.io" []),
        withCart "dave@qkart.io" []
          (withUser (debit Sample.dave 300) Sample.shopping)).
Proof.
  split.
  - apply (checkout_balance_boundary Sample.cfg Sample.carol Sample.shopping
             Sample.threeShirts);
      [reflexivity | discriminate | discriminate | reflexivity].
  - apply (checkout_balance_boundary Sample.cfg Sample.dave Sample.shopping
             Sample.threeShirts);
      [reflexivity | discriminate | discriminate | reflexivity | reflexivity].
Defined.

Lemma checkout_precondition_order_witness :
  (checkout Sample.cfg Sample.bob Sample.fresh
   = (Rejected Err.cartNotFound, Sample.fresh)
   /\ errorKind Err.cartNotFound = NotFound)
  /\ (checkout Sample.cfg Sample.bob Sample.emptied
      = (Rejected Err.noProducts, Sample.emptied)
      /\ errorKind Err.noProducts = InvalidInput)
  /\ (checkout Sample.cfg Sample.bob Sample.shopping
      = (Rejected Err.noValidAddress, Sample.shopping)
      /\ errorKind Err.noValidAddress = InvalidInput).
Proof.
  split; [| split].
  - apply (checkout_precondition_order Sample.cfg Sample.bob Sample.fresh).
    reflexivity.
  - apply (checkout_precondition_order Sample.cfg Sample.bob Sample.emptied).
    reflexivity.
  - apply (checkout_precondition_order Sample.cfg Sample.bob Sample.shopping
             ) with (items := Sample.threeShirts);
      [reflexivity | discriminate | reflexivity].
Defined.




Lemma deleteProductFromCart_removes_one_witness :
  (deleteProductFromCart Sample.alice Sample.mugHex Sample.fresh
   = (Rejected Err.noCartToDeleteFrom, Sample.fresh)
   /\ errorKind Err.noCartToDeleteFrom = InvalidInput)
  /\ (deleteProductFromCart Sample.alice Sample.mugHex Sample.shopping
      = (Rejected Err.notInCart, Sample.shopping)
      /\ errorKind Err.notInCart = InvalidInput)
  /\ (exists before obj after,
        [LineItem.mk Sample.shirt 1; LineItem.mk Sample.mug 2]
        = before ++ obj :: after
        /\ equalsId Sample.shirtUpper obj = true
        /\ (forall obj', obj' ∈ after -> equalsId Sample.shirtUpper obj' = false)
        /\ deleteProductFromCart Sample.alice Sample.shirtUpper Sample.mixed
           = (Resolved tt, withCart "alice@qkart.io" (before ++ after)
                             Sample.mixed)).
Proof.
  split; [| split].
  - apply (deleteProductFromCart_removes_one Sample.alice Sample.mugHex
             Sample.fresh).
    reflexivity.
  - apply (deleteProductFromCart_removes_one Sample.alice Sample.mugHex
             Sample.shopping) with (items := Sample.threeShirts).
    + reflexivity.
    + intros obj Hin. apply list_elem_of_singleton in Hin. subst obj.
      reflexivity.
  - apply (deleteProductFromCart_removes_one Sample.alice Sample.shirtUpper
             Sample.mixed).
    + reflexivity.
    + exists (LineItem.mk Sample.shirt 1).
      split; [apply list_elem_of_here | reflexivity].
Defined.

Lemma addProductToCart_second_spelling_duplicates_witness :
  addProductToCart Sample.alice Sample.shirtUpper 1 Sample.shopping
  = (Resolved
       (Cart.mk "alice@qkart.io"
          [LineItem.mk Sample.shirt 3; LineItem.mk Sample.shirt 1]),
     withCart "alice@qkart.io"
       [LineItem.mk Sample.shirt 3; LineItem.mk Sample.shirt 1] Sample.shopping)
  /\ ~ uniqueItems [LineItem.mk Sample.shirt 3; LineItem.mk Sample.shirt 1].
Proof.
  apply (addProductToCart_second_spelling_duplicates Sample.alice
           Sample.shirtUpper 1 Sample.shopping Sample.threeShirts Sample.shirt).
  - reflexivity.
  - apply NoDup_singleton.
  - reflexivity.
  - reflexivity.
  - apply list_elem_of_here.
  - intros [Heq|Hin]%elem_of_cons; [discriminate | by apply elem_of_nil in Hin].
Defined.

Lemma updateProductInCart_rejections_witness :
  updateProductInCart Sample.alice Sample.malformed 2 Sample.fresh
  = (Rejected Err.noCartUsePost, Sample.fresh)
  /\ updateProductInCart Sample.alice Sample.malformed 2 Sample.shopping
     = (Rejected (Err.notAnId Sample.malformed), Sample.shopping)
  /\ updateProductInCart Sample.alice Sample.retiredHex 2 Sample.stale
     = (Rejected Err.unknownProduct, Sample.stale)
  /\ updateProductInCart Sample.alice Sample.shirtUpper 2 Sample.shopping
     = (Rejected Err.notInCart, Sample.shopping).
Proof.
  split; [| split; [| split]].
  - apply (updateProductInCart_rejections Sample.alice Sample.malformed 2
             Sample.fresh).
    reflexivity.
  - apply (updateProductInCart_rejections Sample.alice Sample.malformed 2
             Sample.shopping) with (items := Sample.threeShirts);
      reflexivity.
  - apply (updateProductInCart_rejections Sample.alice Sample.retiredHex 2
             Sample.stale)
      with (items := [LineItem.mk Sample.retired 2]) (id := Sample.retiredId);
      reflexivity.
  - apply (updateProductInCart_rejections Sample.alice Sample.shirtUpper 2
             Sample.shopping)
      with (items := Sample.threeShirts) (id := Sample.shirtId)
           (product := Sample.shirt).
    + reflexivity.
    + reflexivity.
    + reflexivity.
    + intros [Heq|Hin]%elem_of_cons;
        [discriminate | by apply elem_of_nil in Hin].
Defined.

Lemma addProductToCart_appends_witness :
  addProductToCart Sample.alice Sample.mugHex 2 Sample.shopping
  = (Resolved (Cart.mk "alice@qkart.io"
                 [LineItem.mk Sample.shirt 3; LineItem.mk Sample.mug 2]),
     withCart "alice@qkart.io"
       [LineItem.mk Sample.shirt 3; LineItem.mk Sample.mug 2] Sample.shopping)
  /\ ObjectId_toString (Product._id Sample.mug) = Sample.mugHex.
Proof.
  apply (addProductToCart_appends Sample.alice Sample.mugHex 2 Sample.shopping
           Sample.mug).
  - reflexivity.
  - intros [Heq|Hin]%elem_of_cons; [discriminate | by apply elem_of_nil in Hin].
  - discriminate.
Defined.

Lemma addProductToCart_leaves_a_cart_witness :
  exists items,
    carts (snd (addProductToCart Sample.alice Sample.ghostHex 1 Sample.fresh))
      !! "alice@qkart.io"
    = Some items
    /\ getCartByUser Sample.alice
         (snd (addProductToCart Sample.alice Sample.ghostHex 1 Sample.fresh))
       = (Resolved (inl (Cart.mk "alice@qkart.io" items)),
          snd (addProductToCart Sample.alice Sample.ghostHex 1 Sample.fresh)).
Proof.
  apply (addProductToCart_leaves_a_cart Sample.alice Sample.ghostHex 1
           Sample.fresh Sample.ghostId).
  - reflexivity.
  - reflexivity.
Defined.

Lemma resolved_cart_is_stored_witness :
  getCartByUser Sample.alice
    (withCart "alice@qkart.io"
       [LineItem.mk Sample.shirt 3; LineItem.mk Sample.mug 2] Sample.shopping)
  = (Resolved (inl (Cart.mk "alice@qkart.io"
                      [LineItem.mk Sample.shirt 3; LineItem.mk Sample.mug 2])),
     withCart "alice@qkart.io"
       [LineItem.mk Sample.shirt 3; LineItem.mk Sample.mug 2] Sample.shopping).
Proof.
  apply (resolved_cart_is_stored Sample.cfg Sample.alice Sample.mugHex 2
           Sample.shopping).
  left. reflexivity.
Defined.


Lemma checkout_resolves_only_if_witness :
  exists items,
    carts Sample.shopping !! "alice@qkart.io" = Some items
    /\ items <> []
    /\ User.address Sample.alice <> config.default_address Sample.cfg
    /\ (500 - sumCostQuantity items <? 0)%float = false
    /\ Cart.mk "alice@qkart.io" [] = Cart.mk "alice@qkart.io" []
    /\ users (withCart "alice@qkart.io" []
                (withUser (debit Sample.alice 300) Sample.shopping))
         !! "alice@qkart.io"
       = Some (debit Sample.alice (sumCostQuantity items))
    /\ (User.walletMoney (debit Sample.alice (sumCostQuantity items)) <? 0
       )%float = false
    /\ is_nan (User.walletMoney (debit Sample.alice (sumCostQuantity items)))
       = false.
Proof.
  apply (checkout_resolves_only_if Sample.cfg Sample.alice Sample.shopping
           (Cart.mk "alice@qkart.io" [])
           (withCart "alice@qkart.io" []
              (withUser (debit Sample.alice 300) Sample.shopping))).
  reflexivity.
Defined.

Lemma checkout_twice_rejects_witness :
  checkout Sample.cfg (debit Sample.alice 300)
    (withCart "alice@qkart.io" []
       (withUser (debit Sample.alice 300) Sample.shopping))
  = (Rejected Err.noProducts,
     withCart "alice@qkart.io" []
       (withUser (debit Sample.alice 300) Sample.shopping)).
Proof.
  apply (checkout_twice_rejects Sample.cfg Sample.alice Sample.shopping
           (Cart.mk "alice@qkart.io" [])).
  - reflexivity.
  - reflexivity.
Defined.


Lemma add_then_delete_restores_witness :
  exists cart w1,
    addProductToCart Sample.alice Sample.mugHex 2 Sample.shopping
    = (Resolved cart, w1)
    /\ deleteProductFromCart Sample.alice Sample.mugHex w1
       = (Resolved tt,
          withCart "alice@qkart.io"
            (default [] (carts Sample.shopping !! "alice@qkart.io"))
            Sample.shopping)
    /\ (is_Some (carts Sample.shopping !! "alice@qkart.io") ->
        deleteProductFromCart Sample.alice Sample.mugHex w1
        = (Resolved tt, Sample.shopping)).
Proof.
  apply (add_then_delete_restores Sample.alice Sample.mugHex 2 Sample.shopping
           Sample.mug).
  - reflexivity.
  - intros [Heq|Hin]%elem_of_cons; [discriminate | by apply elem_of_nil in Hin].
  - discriminate.
Defined.


Lemma update_last_write_wins_witness :
  exists cart1 w1,
    updateProductInCart Sample.alice Sample.shirtHex 7 Sample.shopping
    = (Resolved cart1, w1)
    /\ updateProductInCart Sample.alice Sample.shirtHex 1 w1
       = updateProductInCart Sample.alice Sample.shirtHex 1 Sample.shopping.
Proof.
  apply (update_last_write_wins Sample.alice Sample.shirtHex 7 1 Sample.shopping
           Sample.threeShirts Sample.shirt).
  - reflexivity.
  - apply list_elem_of_here.
  - reflexivity.
Defined.

Lemma password_needs_digit_and_letter_witness :
  userSchema.password_validate "20482048"
  = userSchema.Throws
      "Password must contain at least one letter and one number"
  /\ userSchema.password_validate "qkartPass"
     = userSchema.Throws
         "Password must contain at least one letter and one number"
  /\ (2 <= String.length "a1")%nat.
Proof.
  split; [| split].
  - apply (password_needs_digit_and_letter "20482048"). left. reflexivity.
  - apply (password_needs_digit_and_letter "qkartPass"). right. reflexivity.
  - apply (password_needs_digit_and_letter "a1"). reflexivity.
Defined.

Lemma password_validate_extends_witness :
  userSchema.password_validate ("  " ++ "a1" ++ "!#")%string
  = userSchema.Returns.
Proof.
  apply (password_validate_extends "  " "a1" "!#"). reflexivity.
Defined.

Lemma add_twice_keeps_one_witness :
  addProductToCart Sample.alice Sample.mugHex 5
    (withCart "alice@qkart.io" [LineItem.mk Sample.mug 2] Sample.fresh)
  = (Rejected Err.alreadyInCart,
     withCart "alice@qkart.io" [LineItem.mk Sample.mug 2] Sample.fresh)
  /\ carts (withCart "alice@qkart.io" [LineItem.mk Sample.mug 2] Sample.fresh)
       !! "alice@qkart.io"
     = Some [LineItem.mk Sample.mug 2]
  /\ countFor Sample.mugHex [LineItem.mk Sample.mug 2] = 1%nat.
Proof.
  apply (add_twice_keeps_one Sample.alice Sample.mugHex 2 5 Sample.fresh
           (Cart.mk "alice@qkart.io" [LineItem.mk Sample.mug 2])
           (withCart "alice@qkart.io" [LineItem.mk Sample.mug 2] Sample.fresh)
           Sample.mugId).
  - reflexivity.
  - reflexivity.
Defined.

Lemma uniqueItems_kept_witness :
  (keepsUnique "alice@qkart.io" (addProductToCart Sample.alice Sample.mugHex 1)
     Sample.shopping
   /\ resolvesUnique (addProductToCart Sample.alice Sample.mugHex 1)
        Sample.shopping)
  /\ (keepsUnique "alice@qkart.io"
        (updateProductInCart Sample.alice Sample.mugHex 1) Sample.shopping
      /\ resolvesUnique (updateProductInCart Sample.alice Sample.mugHex 1)
           Sample.shopping)
  /\ keepsUnique "alice@qkart.io"
       (deleteProductFromCart Sample.alice Sample.mugHex) Sample.shopping
  /\ (keepsUnique "alice@qkart.io" (checkout Sample.cfg Sample.alice)
        Sample.shopping
      /\ resolvesUnique (checkout Sample.cfg Sample.alice) Sample.shopping).
Proof.
  assert (forall items,
            carts Sample.shopping !! User.email Sample.alice = Some items ->
            uniqueItems items) as Huniq.
  { intros items Hcart. injection Hcart as <-. apply NoDup_singleton. }
  pose proof (uniqueItems_kept Sample.cfg Sample.alice Sample.mugHex 1
                Sample.shopping Huniq) as (Hadd & Hupd & Hdel & Hchk).
  split; [| exact (conj Hupd (conj Hdel Hchk))].
  apply Hadd. intros id Hcast. injection Hcast as <-. reflexivity.
Defined.

(** ** The arithmetic of [checkout] on two carts

    One line item of cost and quantity 94906267: the product is not a
    double and rounds down to 9007199515875288, so a wallet of
    9007199515875290 ends at 2 and a wallet of 9007199515875288 is
    enough. *)
Example checkout_rounds_the_total :
  let item := LineItem.mk (Product.mk Sample.shirtId 94906267) 94906267 in
  let w := mkWorld {[ "alice@qkart.io" := [item] ]} Sample.catalog ∅ in
  let rich := User.mk "Alice" "alice@qkart.io" 9007199515875290 "12 Main Street" in
  let exact := User.mk "Alice" "alice@qkart.io" 9007199515875288 "12 Main Street" in
  sumCostQuantity [item] = 9007199515875288%float
  /\ User.walletMoney <$> users (snd (checkout Sample.cfg rich w))
       !! "alice@qkart.io" = Some 2%float
  /\ fst (checkout Sample.cfg exact w) = Resolved (Cart.mk "alice@qkart.io" []).
Proof. repeat split; reflexivity. Qed.

(** Three items of cost 0.1 (the double nearest to it) come to more than
    the double nearest to 0.3: a wallet of that much is refused. *)
Example checkout_rounds_fractions :
  let item := LineItem.mk (Product.mk Sample.mugId 0x1.999999999999ap-4) 3 in
  let w := mkWorld {[ "alice@qkart.io" := [item] ]} Sample.catalog ∅ in
  let user := User.mk "Alice" "alice@qkart.io" 0x1.3333333333333p-2 "12 Main Street" in
  checkout Sample.cfg user w = (Rejected Err.insufficientBalance, w).
Proof. reflexivity. Qed.

(** Why the wallet is asked to be finite: an infinite wallet is not below
    an infinite total, but their difference is NaN, which is not below
    zero and which [user.save()] does not take. *)
Example checkout_refuses_a_balance_that_is_no_number :
  let item := LineItem.mk (Product.mk Sample.mugId infinity) 1 in
  let w := mkWorld {[ "alice@qkart.io" := [item] ]} Sample.catalog ∅ in
  let user := User.mk "Alice" "alice@qkart.io" infinity "12 Main Street" in
  (sumCostQuantity [item] <=? User.walletMoney user)%float = true
  /\ checkout Sample.cfg user w = (Rejected Err.balanceNotANumber, w).
Proof. split; reflexivity. Qed.
